(** * express-route-builder: the middleware registry and the route chain builder

    A shallow embedding of [lib/index.js] (the registry [middlewares],
    [addMiddleware], [setMiddlewares], [getMiddlewares], [shouldAddMiddleware],
    [buildMiddlewares], [buildRouter]) and of [lib/logger.js] ([logMiddlware]).

    Modelling conventions.
    - JavaScript values are the inductive type [value].  Numbers are the
      integral ones (no NaN, no fractions).  Objects are plain objects: the
      record of their own data properties, over the members they inherit
      from [Object.prototype] ([inherited]).  The built-in properties of
      arrays, functions and strings (the [length] of an array, the [name]
      of a function...) are not modelled.
    - What the model does not cover (a property key that is not a string, a
      string beyond ASCII to lower-case, a member of the router that is not
      one of its registration entry points...) completes with the exception
      [Unsupported], never with a made-up result.
    - Arrays, objects and functions carry the address of the object they
      denote; [===] on them compares addresses.  Objects are otherwise held by
      value: a descriptor pushed on the registry is the snapshot of the
      caller's object after [addMiddleware] has rewritten its [include], and
      an object pushed twice shows as two entries.  The arrays and closures
      the module itself makes take their addresses from a counter kept in
      the state.
    - Exceptions are the [Throw] completions of a small state-and-exception
      monad; a [throw] keeps the mutations made before it, as in JavaScript.
    - Middleware generators are application code: they are the black box
      [call], a total function of the function value, the receiver and the
      argument. *)

From Stdlib Require Import ZArith List String Ascii Bool Lia.
Import ListNotations.
Open Scope string_scope.
Open Scope list_scope.

(** ** JavaScript values *)

Set Warnings "-register-all".

Definition ref := nat.

Inductive value : Type :=
| VUndefined
| VNull
| VBool (b : bool)
| VNum (n : Z)
| VStr (s : string)
| VFun (r : ref) (c : closure)
| VArr (r : ref) (elems : list value)
| VObj (r : ref) (props : list (string * value))
with closure : Type :=
| UserCode
| Builtin (member : string)
| LogWrapper (label : value) (middleware : value).

(** [!v] is [negb (truthy v)]. *)
Definition truthy (v : value) : bool :=
  match v with
  | VUndefined | VNull => false
  | VBool b => b
  | VNum n => negb (n =? 0)%Z
  | VStr s => negb (s =? "")
  | VFun _ _ | VArr _ _ | VObj _ _ => true
  end.

Definition typeof (v : value) : string :=
  match v with
  | VUndefined => "undefined"
  | VNull => "object"
  | VBool _ => "boolean"
  | VNum _ => "number"
  | VStr _ => "string"
  | VFun _ _ => "function"
  | VArr _ _ | VObj _ _ => "object"
  end.

(** [a === b] *)
Definition strict_eq (a b : value) : bool :=
  match a, b with
  | VUndefined, VUndefined => true
  | VNull, VNull => true
  | VBool x, VBool y => Bool.eqb x y
  | VNum x, VNum y => (x =? y)%Z
  | VStr x, VStr y => (x =? y)
  | VFun r _, VFun r' _ => Nat.eqb r r'
  | VArr r _, VArr r' _ => Nat.eqb r r'
  | VObj r _, VObj r' _ => Nat.eqb r r'
  | _, _ => false
  end.

(** ** Completions and the state-and-exception monad *)

Inductive exn : Type :=
| Error (message : string)        (* throw new Error(message) *)
| TypeError                       (* raised by the engine itself *)
| Unsupported (what : string).    (* a case this model does not cover *)

Inductive completion (A : Type) : Type :=
| Normal (a : A)
| Throw (e : exn).
Arguments Normal {A} a.
Arguments Throw {A} e.

Definition M (S A : Type) : Type := S -> completion A * S.

Definition ret {S A} (a : A) : M S A := fun s => (Normal a, s).

Definition bind {S A B} (m : M S A) (f : A -> M S B) : M S B :=
  fun s => match m s with
           | (Normal a, s') => f a s'
           | (Throw e, s') => (Throw e, s')
           end.

Definition throw {S A} (e : exn) : M S A := fun s => (Throw e, s).

Definition lift {S A} (c : completion A) : M S A := fun s => (c, s).

Definition gets {S A} (f : S -> A) : M S A := fun s => (Normal (f s), s).

Definition modify {S} (f : S -> S) : M S unit := fun s => (Normal tt, f s).

Declare Scope js_scope.
Delimit Scope js_scope with js.
Notation "x <- m ;; k" := (bind m (fun x => k))
  (at level 100, m at next level, right associativity) : js_scope.
Notation "m ;;; k" := (bind m (fun _ => k))
  (at level 100, right associativity) : js_scope.
Open Scope js_scope.

(** [l.forEach(body)], the callback growing an accumulator (the array it
    pushes on); a [throw] in the callback ends the iteration. *)
Fixpoint forEach {S A B} (l : list A) (body : A -> B -> M S B) (acc : B) : M S B :=
  match l with
  | [] => ret acc
  | x :: rest => acc' <- body x acc ;; forEach rest body acc'
  end.

(** ** Property access on plain objects *)

Fixpoint lookup (k : string) (props : list (string * value)) : option value :=
  match props with
  | [] => None
  | (k', v) :: rest => if k =? k' then Some v else lookup k rest
  end.

Fixpoint update (k : string) (v : value) (props : list (string * value))
  : list (string * value) :=
  match props with
  | [] => [(k, v)]
  | (k', v') :: rest =>
      if k =? k' then (k, v) :: rest else (k', v') :: update k v rest
  end.

(** The function members of [Object.prototype], which every plain object
    inherits, and the addresses the engine keeps them at. *)
Definition object_prototype_functions : list string :=
  ["constructor"; "hasOwnProperty"; "isPrototypeOf"; "propertyIsEnumerable";
   "toLocaleString"; "toString"; "valueOf"; "__defineGetter__";
   "__defineSetter__"; "__lookupGetter__"; "__lookupSetter__"].

Definition engine_base : ref := 900.

Fixpoint builtins_from (a : ref) (names : list string)
  : list (string * value) :=
  match names with
  | [] => []
  | k :: rest => (k, VFun a (Builtin k)) :: builtins_from (S a) rest
  end.

Definition object_prototype : value :=
  VObj engine_base (builtins_from (S engine_base) object_prototype_functions).

(** What a plain object without own property [k] reads at [k]: a function
    of [Object.prototype], the prototype itself for [__proto__], nothing
    otherwise. *)
Definition inherited (k : string) : option value :=
  if k =? "__proto__" then Some object_prototype
  else lookup k (builtins_from (S engine_base) object_prototype_functions).

(** [o.k] and [o[k]] *)
Definition get_prop (o : value) (k : string) : completion value :=
  match o with
  | VUndefined | VNull => Throw TypeError
  | VObj _ props =>
      Normal (match lookup k props with
              | Some v => v
              | None =>
                  match inherited k with
                  | Some v => v
                  | None => VUndefined
                  end
              end)
  | _ => Normal VUndefined
  end.

(** [o.k = v]; the result is the object after the assignment. *)
Definition set_prop (o : value) (k : string) (v : value) : completion value :=
  match o with
  | VUndefined | VNull => Throw TypeError
  | VObj r props => Normal (VObj r (update k v props))
  | _ => Normal o
  end.

(** The property key a value denotes.  Only string keys are covered. *)
Definition to_key (name : value) : completion string :=
  match name with
  | VStr s => Normal s
  | _ => Throw (Unsupported "property key that is not a string")
  end.

(** ** Arrays and strings *)

(** [Array.prototype.indexOf]: the first index whose element is [===] to
    [x], or [-1]. *)
Fixpoint array_indexOf (elems : list value) (x : value) : Z :=
  match elems with
  | [] => (-1)%Z
  | e :: rest =>
      if strict_eq e x then 0%Z
      else let i := array_indexOf rest x in
           if (i <? 0)%Z then (-1)%Z else (i + 1)%Z
  end.

(** [String.prototype.indexOf] with a string argument. *)
Definition string_indexOf (s : string) (search : string) : Z :=
  match String.index 0 search s with
  | Some i => Z.of_nat i
  | None => (-1)%Z
  end.

(** [recv.indexOf(x)], dispatched on the receiver. *)
Definition indexOf (recv : value) (x : value) : completion Z :=
  match recv with
  | VArr _ elems => Normal (array_indexOf elems x)
  | VStr s =>
      match x with
      | VStr t => Normal (string_indexOf s t)
      | _ => Throw (Unsupported "String.prototype.indexOf of a non-string")
      end
  | VUndefined | VNull => Throw TypeError
  | VObj _ props =>
      match lookup "indexOf" props with
      | Some (VFun _ _) => Throw (Unsupported "indexOf defined by the object")
      | _ => Throw TypeError
      end
  | _ => Throw TypeError
  end.

(** The elements [[].concat(v)] has: those of [v] when [v] is an array,
    [v] alone otherwise. *)
Definition concat_elems (v : value) : list value :=
  match v with
  | VArr _ elems => elems
  | _ => [v]
  end.

(** The lower case of an ASCII string, which is what [toLowerCase] gives on
    it: the letters [A] to [Z] become [a] to [z]. *)
Definition lower_ascii (c : ascii) : ascii :=
  let n := nat_of_ascii c in
  if (65 <=? n)%nat && (n <=? 90)%nat then ascii_of_nat (n + 32) else c.

Fixpoint lower (s : string) : string :=
  match s with
  | EmptyString => EmptyString
  | String c rest => String (lower_ascii c) (lower rest)
  end.

Definition is_ascii_char (c : ascii) : bool := (nat_of_ascii c <? 128)%nat.

Fixpoint is_ascii (s : string) : bool :=
  match s with
  | EmptyString => true
  | String c rest => is_ascii_char c && is_ascii rest
  end.

(** ** lib/index.js *)

(** The module's state: the array [middlewares], and the next free address
    of the heap the module allocates its arrays and closures in. *)
Record state : Type := mkState {
  middlewares : list value;
  fresh : ref
}.

Definition alloc : M state ref :=
  fun st => (Normal (fresh st), mkState (middlewares st) (S (fresh st))).

Definition push (v : value) : M state unit :=
  modify (fun st => mkState (middlewares st ++ [v]) (fresh st)).

(** [[].concat(v)]: a new array. *)
Definition concat (v : value) : M state value :=
  a <- alloc ;; ret (VArr a (concat_elems v)).

(** [logger(label, middleware)], lib/logger.js: a new closure over the label
    and the middleware it wraps.  What the closure does when it is run is
    the subject of the section on the logger further down. *)
Definition logger (label middleware : value) : M state value :=
  a <- alloc ;; ret (VFun a (LogWrapper label middleware)).

Section RouteBuilder.

(** [call f this arg] is what the application function [f] returns when
    invoked as [this.f(arg)]. *)
Variable call : value -> value -> value -> value.

Definition invoke (f this arg : value) : completion value :=
  match f with
  | VFun _ _ => Normal (call f this arg)
  | _ => Throw TypeError
  end.

(** [o.hasOwnProperty(name)]: the member is looked up on [o], where an own
    property of that name shadows the one of [Object.prototype], and is then
    called.  The inherited one tells whether [o] has an own property of the
    key [name] denotes. *)
Definition hasOwnProperty (o : value) (name : value) : completion value :=
  match o with
  | VUndefined | VNull => Throw TypeError
  | VObj _ props =>
      match lookup "hasOwnProperty" props with
      | Some (VFun r c) => Normal (call (VFun r c) o name)
      | Some _ => Throw TypeError
      | None =>
          match to_key name with
          | Normal k =>
              Normal (VBool (match lookup k props with
                             | Some _ => true
                             | None => false
                             end))
          | Throw e => Throw e
          end
      end
  | _ => Throw (Unsupported "own properties of a value that is no object")
  end.

(** [v.toLowerCase()]: on a string, the string in lower case, computed here
    for ASCII strings only; on a plain object, its own [toLowerCase]
    called; no other value has such a member. *)
Definition toLowerCase (v : value) : completion value :=
  match v with
  | VStr s =>
      if is_ascii s then Normal (VStr (lower s))
      else Throw (Unsupported "toLowerCase of a string beyond ASCII")
  | VObj _ props =>
      match lookup "toLowerCase" props with
      | Some (VFun r c) => Normal (call (VFun r c) v VUndefined)
      | _ => Throw TypeError
      end
  | _ => Throw TypeError
  end.

Definition shouldAddMiddleware (routeObject middlewareObject : value)
  : M state value :=
  include <- lift (get_prop middlewareObject "include") ;;
  if negb (truthy include) then ret include
  else
    all <- lift (indexOf include (VStr "all")) ;;
    if (all >=? 0)%Z then ret (VBool true)
    else
      method <- lift (get_prop routeObject "method") ;;
      i <- lift (indexOf include method) ;;
      ret (VBool (i >=? 0)%Z).

Definition addMiddleware (middlewareObject : value) : M state unit :=
  if negb (truthy middlewareObject)
     || negb (typeof middlewareObject =? "object")
  then throw (Error "addMiddleware: middlewareObject must be an object")
  else
    name <- lift (get_prop middlewareObject "name") ;;
    if negb (truthy name) || negb (typeof name =? "string")
    then throw (Error "addMiddleware: name required")
    else
      generator <- lift (get_prop middlewareObject "generator") ;;
      if negb (truthy generator) || negb (typeof generator =? "function")
      then throw (Error
             "addMiddleware: middlewareObject.generator must be a function")
      else
        include <- lift (get_prop middlewareObject "include") ;;
        middlewareObject <-
          (if truthy include
           then arr <- concat include ;;
                lift (set_prop middlewareObject "include" arr)
           else ret middlewareObject) ;;
        push middlewareObject.

Definition getMiddlewares : M state (list value) := gets middlewares.

Definition setMiddlewares (middlewareObjects : value) : M state unit :=
  match middlewareObjects with
  | VArr _ elems =>
      forEach elems (fun middlewareObject _ => addMiddleware middlewareObject) tt
  | _ => throw (Error "setMiddleware: middlewareObjects should be an Array")
  end.

(** The callback of [middlewares.forEach] in [buildMiddlewares];
    [routeMiddlewares] is the array it pushes on. *)
Definition buildMiddlewares_each (routeObject middlewareObject : value)
    (routeMiddlewares : list value) : M state (list value) :=
  name <- lift (get_prop middlewareObject "name") ;;
  include <- lift (get_prop middlewareObject "include") ;;
  missing <-
    (if strict_eq include (VStr "required")
     then own <- lift (hasOwnProperty routeObject name) ;;
          ret (negb (truthy own))
     else ret false) ;;
  if (missing : bool)
  then key <- lift (to_key name) ;;
       throw (Error ("" ++ key ++ " is a required configuration"))
  else
    should <- shouldAddMiddleware routeObject middlewareObject ;;
    wanted <-
      (if truthy should then ret true
       else own <- lift (hasOwnProperty routeObject name) ;;
            ret (truthy own)) ;;
    if (wanted : bool)
    then
      generator <- lift (get_prop middlewareObject "generator") ;;
      key <- lift (to_key name) ;;
      config <- lift (get_prop routeObject key) ;;
      middleware <- lift (invoke generator middlewareObject config) ;;
      wrapped <- logger name middleware ;;
      ret (routeMiddlewares ++ [wrapped])
    else ret routeMiddlewares.

Definition buildMiddlewares (routeObject : value) : M state (list value) :=
  path <- lift (get_prop routeObject "path") ;;
  if negb (truthy path)
  then throw (Error "route object requires a 'path' attribute")
  else
    method <- lift (get_prop routeObject "method") ;;
    if negb (truthy method)
    then throw (Error "route object requires a 'methods' attribute")
    else
      registered <- gets middlewares ;;
      forEach registered (buildMiddlewares_each routeObject) [path].

(** The router collaborator: an object with one registration entry point
    per name in [entry_points]; calling one records the name and the
    positional arguments at the end of [stack].  [other_callables] names the
    further callable members [router[name]] can reach ([use], [param],
    [apply]...), to which come the members every object inherits from
    [Object.prototype]: what calling one of them does is not modelled.  Any
    other name reads [undefined], which has no [apply]. *)
Record Router : Type := mkRouter {
  rid : ref;
  entry_points : list string;
  other_callables : list string;
  stack : list (string * list value)
}.

(** [router[name].apply(router, args)] *)
Definition apply_entry_point (name : value) (args : list value)
  : M (Router * state) unit :=
  fun '(router, st) =>
    match to_key name with
    | Normal key =>
        if existsb (String.eqb key) (entry_points router)
        then (Normal tt,
              (mkRouter (rid router) (entry_points router)
                        (other_callables router)
                        (stack router ++ [(key, args)]), st))
        else if existsb (String.eqb key) (other_callables router)
        then (Throw (Unsupported "a member that is no entry point"),
              (router, st))
        else match inherited key with
             | Some _ =>
                 (Throw (Unsupported "a member of Object.prototype"),
                  (router, st))
             | None => (Throw TypeError, (router, st))
             end
    | Throw e => (Throw e, (router, st))
    end.

(** A computation of the module run beside the router. *)
Definition on_module {A} (m : M state A) : M (Router * state) A :=
  fun '(router, st) => let '(c, st') := m st in (c, (router, st')).

Definition buildRouter_each (routeObject : value) (_ : unit)
  : M (Router * state) unit :=
  method <- lift (get_prop routeObject "method") ;;
  if negb (truthy method)
  then throw (Error "routeObject requires a 'method' object")
  else
    routeMiddlewares <- on_module (buildMiddlewares routeObject) ;;
    name <- lift (toLowerCase method) ;;
    apply_entry_point name routeMiddlewares.

(** [buildRouter(router, routeObjects)]; the router is mutated in place,
    so the object the caller holds is the first component of the final
    state, also when the call throws. *)
Definition buildRouter (router : Router) (routeObjects : list value)
    (st : state) : completion Router * (Router * state) :=
  (forEach routeObjects buildRouter_each tt ;;;
   gets fst) (router, st).

End RouteBuilder.


(** ** lib/logger.js *)

(** What running a middleware [function (req, res, next)] does, up to its
    return: the calls of the continuation it was given, the lines it logs
    through [debug], the other effects it has (reads and writes of [req] and
    [res], ...), and how it ends.  A call of [next] or an effect answers
    with a [reply], on which the rest of the run depends. *)
Inductive reply : Type :=
| Returned (v : value)
| Raised (e : value).

Section Logger.

Variable effect : Type.

Inductive prog : Type :=
| Return (v : value)
| Raise (e : value)
| DebugLog (namespace : string) (message : value) (k : prog)
| CallNext (err : value) (k : reply -> prog)
| Perform (e : effect) (k : reply -> prog).

(** A middleware, as a function of [this], [req] and [res]; its [next] is
    the [CallNext] of its program. *)
Definition middleware_fn : Type := value -> value -> value -> prog.

(** [p] followed by [k]. *)
Fixpoint and_then (p : prog) (k : reply -> prog) : prog :=
  match p with
  | Return v => k (Returned v)
  | Raise e => k (Raised e)
  | DebugLog namespace message p' => DebugLog namespace message (and_then p' k)
  | CallNext err k' => CallNext err (fun r => and_then (k' r) k)
  | Perform e k' => Perform e (fun r => and_then (k' r) k)
  end.

(** The program [p] run with the function [f] passed for its [next]. *)
Fixpoint with_next (f : value -> prog) (p : prog) : prog :=
  match p with
  | Return v => Return v
  | Raise e => Raise e
  | DebugLog namespace message k => DebugLog namespace message (with_next f k)
  | CallNext err k => and_then (f err) (fun r => with_next f (k r))
  | Perform e k => Perform e (fun r => with_next f (k r))
  end.

(** [newNext]: logs the error, or ["complete"], calls [next(err)] and
    returns nothing. *)
Definition newNext (namespace : string) (err : value) : prog :=
  DebugLog namespace (if truthy err then err else VStr "complete")
    (CallNext err (fun r =>
       match r with
       | Returned _ => Return VUndefined
       | Raised e => Raise e
       end)).

(** [logMiddlware(label, middleware)]: the returned function logs
    ["started"], calls the middleware on the same [this], [req] and [res]
    with [newNext] for its continuation, and returns what it returns. *)
Definition logMiddlware (label : string) (middleware : middleware_fn)
  : middleware_fn :=
  fun this req res =>
    let debugLog := DebugLog ("middleware:" ++ label) in
    debugLog (VStr "started")
      (with_next (newNext ("middleware:" ++ label)) (middleware this req res)).

(** Running a program in a world: [perform] gives the effects their
    meaning, [next] is the continuation the caller passed, and the lines
    logged are appended to [log]. *)
Variable world : Type.
Variable perform : effect -> world -> reply * world.

Fixpoint run (next : value -> world -> reply * world) (p : prog) (w : world)
    (log : list (string * value)) : reply * world * list (string * value) :=
  match p with
  | Return v => (Returned v, w, log)
  | Raise e => (Raised e, w, log)
  | DebugLog namespace message k => run next k w (log ++ [(namespace, message)])
  | CallNext err k => let '(r, w') := next err w in run next (k r) w' log
  | Perform e k => let '(r, w') := perform e w in run next (k r) w' log
  end.

(** What a run is observed by, the log apart: its completion and the world
    it leaves. *)
Definition observed (result : reply * world * list (string * value))
  : reply * world :=
  fst result.

(** The continuation [next] with its return value dropped, as a caller of
    [newNext] sees it. *)
Definition forwarded (next : value -> world -> reply * world)
  : value -> world -> reply * world :=
  fun err w =>
    let '(r, w') := next err w in
    (match r with
     | Returned _ => Returned VUndefined
     | Raised e => Raised e
     end, w').

End Logger.

Arguments Return {effect} v.
Arguments Raise {effect} e.
Arguments DebugLog {effect} namespace message k.
Arguments CallNext {effect} err k.
Arguments Perform {effect} e k.

(** ** What the registry holds *)

(** [field o k] is [o.k] on a value that is not [undefined] or [null]. *)
Definition field (o : value) (k : string) : value :=
  match get_prop o k with
  | Normal v => v
  | Throw _ => VUndefined
  end.

(** The three guards of [addMiddleware], as one test. *)
Definition accepted (middlewareObject : value) : bool :=
  truthy middlewareObject
  && (typeof middlewareObject =? "object")
  && truthy (field middlewareObject "name")
  && (typeof (field middlewareObject "name") =? "string")
  && truthy (field middlewareObject "generator")
  && (typeof (field middlewareObject "generator") =? "function").

(** The object [addMiddleware] pushes: the argument, its [include] replaced
    by a new array at address [a] when it is truthy. *)
Definition normalized (a : ref) (middlewareObject : value) : value :=
  let include := field middlewareObject "include" in
  if truthy include
  then match set_prop middlewareObject "include"
               (VArr a (concat_elems include)) with
       | Normal o => o
       | Throw _ => middlewareObject
       end
  else middlewareObject.

(** The policy tokens of a registered descriptor: the elements of its
    [include] array, none when it has no such array. *)
Definition policy (middlewareObject : value) : list value :=
  match field middlewareObject "include" with
  | VArr _ tokens => tokens
  | _ => []
  end.

Definition contains (tokens : list value) (token : value) : bool :=
  existsb (fun t => strict_eq t token) tokens.

(** An entry as [addMiddleware] leaves it: a plain object with a non-empty
    string [name], a function [generator], and an [include] that is an array
    or a falsy value left as it was. *)
Definition descriptor (v : value) : bool :=
  match v with
  | VObj _ _ =>
      match field v "name" with
      | VStr s => negb (s =? "")
      | _ => false
      end
      && match field v "generator" with
         | VFun _ _ => true
         | _ => false
         end
      && match field v "include" with
         | VArr _ _ => true
         | other => negb (truthy other)
         end
  | _ => false
  end.

Definition registry_ok (registry : list value) : Prop :=
  Forall (fun v => descriptor v = true) registry.

(** ** The chain of a route, by its registry *)

Definition has_own (routeObject : value) (name : string) : bool :=
  match routeObject with
  | VObj _ props =>
      match lookup name props with Some _ => true | None => false end
  | _ => false
  end.

Definition name_of (middlewareObject : value) : string :=
  match field middlewareObject "name" with
  | VStr s => s
  | _ => ""
  end.

(** The inclusion rule in the words of the specification: the policy
    contains ["all"], or a token equal to the route's method, or the route
    has a field of the middleware's name. *)
Definition spec_included (routeObject middlewareObject : value) : bool :=
  contains (policy middlewareObject) (VStr "all")
  || contains (policy middlewareObject) (field routeObject "method")
  || has_own routeObject (name_of middlewareObject).

Section Chain.

Variable call : value -> value -> value -> value.
Variable routeObject : value.

(** The handler the generator of a descriptor makes for the route. *)
Definition handler_for (middlewareObject : value) : value :=
  call (field middlewareObject "generator") middlewareObject
       (field routeObject (name_of middlewareObject)).

(** What the chain holds for a descriptor: its name and its handler. *)
Definition link (middlewareObject : value) : value * value :=
  (field middlewareObject "name", handler_for middlewareObject).

(** The closures [logger] allocates for a list of descriptors, from
    address [a] on. *)
Fixpoint wrap_all (a : ref) (ds : list value) : list value :=
  match ds with
  | [] => []
  | d :: rest =>
      VFun a (LogWrapper (field d "name") (handler_for d))
      :: wrap_all (S a) rest
  end.

End Chain.

(** The label and the middleware a closure of [logger] wraps. *)
Definition unwrap (v : value) : option (value * value) :=
  match v with
  | VFun _ (LogWrapper label middleware) => Some (label, middleware)
  | _ => None
  end.

(** ** The failure condition of [add], in the specification's words *)

Definition is_non_null_object (v : value) : bool :=
  (typeof v =? "object") && negb (strict_eq v VNull).

(** The argument is absent or not a non-null object, or [name] is missing
    or not a string, or [generator] is missing or not invokable.  A missing
    property reads [undefined], which is neither a string nor a function. *)
Definition spec_rejected (middlewareObject : value) : bool :=
  negb (is_non_null_object middlewareObject)
  || negb (typeof (field middlewareObject "name") =? "string")
  || negb (typeof (field middlewareObject "generator") =? "function").

(** The same, with the empty name added. *)
Definition rejected (middlewareObject : value) : bool :=
  spec_rejected middlewareObject
  || strict_eq (field middlewareObject "name") (VStr "").

(** The own property [k] of an object, when it has one. *)
Definition own_field (o : value) (k : string) : option value :=
  match o with
  | VObj _ props => lookup k props
  | _ => None
  end.

(** Whether a value is an array ("sequence form"). *)
Definition is_array (v : value) : bool :=
  match v with
  | VArr _ _ => true
  | _ => false
  end.


(** ** Properties of computations *)

(** A computation that leaves the registry as it was. *)
Definition preserves_registry {A} (m : M state A) : Prop :=
  forall st, middlewares (snd (m st)) = middlewares st.


(** The states the exported functions lead to from an empty registry. *)
Inductive reachable (call : value -> value -> value -> value)
  : state -> Prop :=
| reach_empty a : reachable call (mkState [] a)
| reach_addMiddleware st middlewareObject :
    reachable call st ->
    reachable call (snd (addMiddleware middlewareObject st))
| reach_setMiddlewares st middlewareObjects :
    reachable call st ->
    reachable call (snd (setMiddlewares middlewareObjects st))
| reach_buildMiddlewares st routeObject :
    reachable call st ->
    reachable call (snd (buildMiddlewares call routeObject st))
| reach_buildRouter st router routeObjects :
    reachable call st ->
    reachable call (snd (snd (buildRouter call router routeObjects st))).

(** ** Data of the test suite and of the README *)

(** A generator: some new function for each generator function. *)
Definition factory (generator this config : value) : value :=
  match generator with
  | VFun r _ => VFun (1000 + r) UserCode
  | _ => VUndefined
  end.

Definition pagination : value :=
  VObj 1 [("name", VStr "pagination"); ("include", VStr "get");
          ("generator", VFun 2 UserCode)].

Definition authorization : value :=
  VObj 3 [("name", VStr "authorization"); ("include", VStr "optional");
          ("generator", VFun 4 UserCode)].

Definition handler : value :=
  VObj 5 [("name", VStr "handler"); ("include", VStr "required");
          ("generator", VFun 6 UserCode)].

Definition dispatchers : value :=
  VObj 7 [("name", VStr "dispatchers"); ("include", VStr "all");
          ("generator", VFun 8 UserCode)].

Definition empty_registry : state := mkState [] 100.

(** The registry after [setMiddlewares(middlewareObjects)] of the tests. *)
Definition tested_registry : state :=
  snd (setMiddlewares (VArr 9 [pagination; authorization]) empty_registry).

Definition fish : value :=
  VObj 10 [("method", VStr "get"); ("path", VStr "/fish");
           ("authorization", VStr "bearer")].

Definition fish_uppercase : value :=
  VObj 11 [("method", VStr "GET"); ("path", VStr "/fish")].

Definition fish_lowercase : value :=
  VObj 12 [("method", VStr "get"); ("path", VStr "/fish")].

Definition get_badgers : value :=
  VObj 13 [("method", VStr "get"); ("path", VStr "/badgers");
           ("authorization", VStr "bearer")].

Definition post_badgers : value :=
  VObj 14 [("method", VStr "post"); ("path", VStr "/badgers");
           ("authorization", VStr "bearer")].

Definition express_router : Router :=
  mkRouter 20 ["get"; "post"; "put"; "patch"; "delete"; "all"]
    ["use"; "route"; "param"; "handle"; "process_params"; "apply"; "call";
     "bind"] [].

(** A descriptor with an empty name, and one with an empty include. *)
Definition nameless : value :=
  VObj 30 [("name", VStr ""); ("generator", VFun 2 UserCode)].

Definition empty_include : value :=
  VObj 31 [("name", VStr "quiet"); ("include", VStr "");
           ("generator", VFun 2 UserCode)].

(** A route that has a field named [hasOwnProperty], and a descriptor
    named like a member of [Object.prototype]. *)
Definition shadowing_route : value :=
  VObj 33 [("method", VStr "optional"); ("path", VStr "/fish");
           ("hasOwnProperty", VNum 1)].

Definition toString_descriptor : value :=
  VObj 34 [("name", VStr "toString"); ("include", VStr "all");
           ("generator", VFun 35 UserCode)].

(** A generator that returns the configuration it is given. *)
Definition echo_factory (generator this config : value) : value := config.

(** A route whose method is the word of a policy. *)
Definition optional_route : value :=
  VObj 32 [("method", VStr "optional"); ("path", VStr "/fish")].

(** The [pagination] middleware of the tests: [req.pagination =
    "pagination"; next();], on a world that holds the fields set on [req] and
    the errors [next] was called with. *)
Inductive req_effect : Type :=
| SetReq (k : string) (v : value).

Definition req_world : Type := list (string * value) * list value.

Definition set_req (e : req_effect) (w : req_world) : reply * req_world :=
  match e with
  | SetReq k v => (Returned VUndefined, (update k v (fst w), snd w))
  end.

Definition express_next (err : value) (w : req_world) : reply * req_world :=
  (Returned VUndefined, (fst w, snd w ++ [err])).

Definition pagination_middleware : middleware_fn req_effect :=
  fun this req res =>
    Perform (SetReq "pagination" (VStr "pagination"))
      (fun _ => CallNext VUndefined (fun _ => Return VUndefined)).

(** ** Batches of descriptors, routes a router can take, and log lines *)

(** The address counter after [addMiddleware] has taken each of [elems],
    all of which pass its guards, starting from [a]. *)
Fixpoint fresh_after (a : ref) (elems : list value) : ref :=
  match elems with
  | [] => a
  | x :: rest =>
      fresh_after (if truthy (field x "include") then S a else a) rest
  end.

(** The entries it has pushed for them, in order. *)
Fixpoint normalize_all (a : ref) (elems : list value) : list value :=
  match elems with
  | [] => []
  | x :: rest =>
      normalized a x
      :: normalize_all (if truthy (field x "include") then S a else a) rest
  end.



(** The message of the first guard of [addMiddleware] an argument fails. *)
Definition rejection (middlewareObject : value) : string :=
  if negb (truthy middlewareObject)
     || negb (typeof middlewareObject =? "object")
  then "addMiddleware: middlewareObject must be an object"
  else if negb (truthy (field middlewareObject "name"))
          || negb (typeof (field middlewareObject "name") =? "string")
  then "addMiddleware: name required"
  else "addMiddleware: middlewareObject.generator must be a function".

(** The line [newNext] logs for the error it is called with. *)
Definition log_line (namespace : string) (err : value) : string * value :=
  (namespace, if truthy err then err else VStr "complete").

Section LoggerTrace.

Variable effect : Type.
Variable world : Type.
Variable perform : effect -> world -> reply * world.

(** The errors a run calls its continuation with, in order. *)
Fixpoint next_calls (next : value -> world -> reply * world)
    (p : prog effect) (w : world) : list value :=
  match p with
  | Return _ => []
  | Raise _ => []
  | DebugLog _ _ k => next_calls next k w
  | CallNext err k =>
      let '(r, w') := next err w in err :: next_calls next (k r) w'
  | Perform e k =>
      let '(r, w') := perform e w in next_calls next (k r) w'
  end.

(** A program that logs nothing itself. *)
Inductive quiet : prog effect -> Prop :=
| quiet_Return v : quiet (Return v)
| quiet_Raise e : quiet (Raise e)
| quiet_CallNext err k : (forall r, quiet (k r)) -> quiet (CallNext err k)
| quiet_Perform e k : (forall r, quiet (k r)) -> quiet (Perform e k).

End LoggerTrace.

(** A middleware that returns what its continuation returns,
    [return next();], and a continuation that returns a number. *)
Definition echoing_middleware : middleware_fn req_effect :=
  fun this req res =>
    CallNext VUndefined
      (fun r =>
         match r with
         | Returned v => Return v
         | Raised e => Raise e
         end).

Definition answering_next (err : value) (w : req_world) : reply * req_world :=
  (Returned (VNum 42), (fst w, snd w ++ [err])).

(** A middleware that fails: [next(new Error(...))], the error being the
    object at address 60. *)
Definition failing_middleware : middleware_fn req_effect :=
  fun this req res =>
    CallNext (VObj 60 [("message", VStr "denied")])
      (fun _ => Return VUndefined).

(** ** Lemmas on the helpers *)

Lemma lookup_update_same k v props : lookup k (update k v props) = Some v.
Proof.
  induction props as [|[k' v'] rest IH]; simpl.
  - now rewrite String.eqb_refl.
  - destruct (k =? k') eqn:E; simpl.
    + now rewrite String.eqb_refl.
    + now rewrite E.
Qed.

Lemma lookup_update_other k k' v props :
  k' <> k -> lookup k' (update k v props) = lookup k' props.
Proof.
  intros Hne. induction props as [|[k0 v0] rest IH]; simpl.
  - destruct (k' =? k) eqn:E; [apply String.eqb_eq in E; contradiction|reflexivity].
  - destruct (k =? k0) eqn:E; simpl.
    + apply String.eqb_eq in E; subst k0.
      destruct (k' =? k) eqn:E'; [apply String.eqb_eq in E'; contradiction|reflexivity].
    + destruct (k' =? k0); [reflexivity|exact IH].
Qed.

Lemma array_indexOf_lower_bound elems x : (-1 <= array_indexOf elems x)%Z.
Proof.
  induction elems as [|e rest IH]; simpl; [lia|].
  destruct (strict_eq e x); [lia|].
  destruct (array_indexOf rest x <? 0)%Z eqn:E; lia.
Qed.

(** [indexOf] finds a token exactly when the array contains one [===] to it. *)
Lemma array_indexOf_contains elems x :
  (array_indexOf elems x >=? 0)%Z = contains elems x.
Proof.
  induction elems as [|e rest IH]; simpl; [reflexivity|].
  destruct (strict_eq e x); simpl; [reflexivity|].
  rewrite <- IH.
  pose proof (array_indexOf_lower_bound rest x).
  destruct (array_indexOf rest x <? 0)%Z eqn:E; rewrite !Z.geb_leb.
  - apply Z.ltb_lt in E.
    destruct (Z.leb_spec 0 (array_indexOf rest x)); [lia|reflexivity].
  - apply Z.ltb_ge in E.
    destruct (Z.leb_spec 0 (array_indexOf rest x + 1));
      destruct (Z.leb_spec 0 (array_indexOf rest x)); try lia; reflexivity.
Qed.

Lemma strict_eq_strings s t : strict_eq (VStr s) (VStr t) = (s =? t).
Proof. reflexivity. Qed.

(** ** The registry operations *)

Ltac run_monad :=
  unfold bind, lift, ret, throw, gets, modify, push, concat, logger, alloc in *;
  simpl in *.

(** [addMiddleware] on an argument that passes the guards: one entry more,
    at the tail. *)
Lemma addMiddleware_accepted middlewareObject st :
  accepted middlewareObject = true ->
  addMiddleware middlewareObject st =
    (Normal tt,
     mkState (middlewares st ++ [normalized (fresh st) middlewareObject])
             (if truthy (field middlewareObject "include")
              then S (fresh st) else fresh st)).
Proof.
  unfold accepted, normalized, field, addMiddleware.
  destruct middlewareObject as [| |b|n|s| |r elems|r props]; simpl;
    try discriminate;
    try (destruct b; discriminate);
    try (rewrite Bool.andb_false_r; simpl; discriminate).
  destruct (lookup "name" props) as [name|]; simpl; [|discriminate].
  destruct (truthy name) eqn:Tn; simpl; [|discriminate].
  destruct (typeof name =? "string") eqn:Sn; simpl; [|discriminate].
  destruct (lookup "generator" props) as [generator|]; simpl; [|discriminate].
  destruct (truthy generator) eqn:Tg; simpl; [|discriminate].
  destruct (typeof generator =? "function") eqn:Sg; simpl; [|discriminate].
  intros _. run_monad. rewrite Tn, Sn. simpl. rewrite Tg, Sg. simpl.
  destruct (lookup "include" props) as [include|]; simpl; [|reflexivity].
  destruct (truthy include); reflexivity.
Qed.

(** [addMiddleware] on an argument that fails a guard throws and leaves the
    state as it was. *)
Lemma addMiddleware_rejected middlewareObject st :
  accepted middlewareObject = false ->
  exists message, addMiddleware middlewareObject st = (Throw (Error message), st).
Proof.
  unfold accepted, field, addMiddleware.
  destruct middlewareObject as [| | |n|s|r c|r elems|r props]; simpl;
    try (intros _; run_monad; eexists; reflexivity).
  - destruct b; simpl; intros _; run_monad; eexists; reflexivity.
  - destruct (negb (n =? 0)%Z); simpl; intros _; run_monad; eexists; reflexivity.
  - destruct (negb (s =? "")); simpl; intros _; run_monad; eexists; reflexivity.
  - run_monad.
    destruct (lookup "name" props) as [name|]; simpl;
      [|intros _; eexists; reflexivity].
    destruct (truthy name) eqn:Tn; simpl; [|intros _; eexists; reflexivity].
    destruct (typeof name =? "string") eqn:Sn; simpl;
      [|intros _; eexists; reflexivity].
    destruct (lookup "generator" props) as [generator|]; simpl;
      [|intros _; eexists; reflexivity].
    destruct (truthy generator) eqn:Tg; simpl;
      [|intros _; eexists; reflexivity].
    destruct (typeof generator =? "function") eqn:Sg; simpl;
      [discriminate|intros _; eexists; reflexivity].
Qed.

Lemma accepted_normalized_descriptor a middlewareObject :
  accepted middlewareObject = true ->
  descriptor (normalized a middlewareObject) = true.
Proof.
  unfold accepted, normalized, descriptor, field.
  destruct middlewareObject as [| |b|n|s| |r elems|r props]; simpl;
    try discriminate;
    try (destruct b; discriminate);
    try (rewrite Bool.andb_false_r; simpl; discriminate).
  destruct (lookup "name" props) as [name|] eqn:En; simpl; [|discriminate].
  destruct name as [| |b|n|s| | |]; simpl; try discriminate;
    try (destruct b; discriminate);
    try (rewrite Bool.andb_false_r; simpl; discriminate).
  destruct (negb (s =? "")) eqn:Es; simpl; [|discriminate].
  destruct (lookup "generator" props) as [generator|] eqn:Eg; simpl;
    [|discriminate].
  destruct generator as [| |b|n|s'|rg cg| |]; simpl; try discriminate;
    try (destruct b; discriminate);
    try (rewrite Bool.andb_false_r; simpl; discriminate).
  intros _.
  destruct (lookup "include" props) as [include|] eqn:Ei; simpl.
  - destruct (truthy include) eqn:Ti; simpl.
    + rewrite lookup_update_same.
      rewrite !lookup_update_other by discriminate.
      now rewrite En, Eg, Es.
    + rewrite En, Eg, Ei, Es. simpl.
      destruct include; simpl in *; try reflexivity; try discriminate;
        now rewrite Ti.
  - now rewrite En, Eg, Ei, Es.
Qed.

Lemma addMiddleware_registry_ok middlewareObject st :
  registry_ok (middlewares st) ->
  registry_ok (middlewares (snd (addMiddleware middlewareObject st))).
Proof.
  intros Hok. destruct (accepted middlewareObject) eqn:A.
  - rewrite (addMiddleware_accepted _ _ A). simpl.
    apply Forall_app. split; [exact Hok|].
    constructor; [|constructor]. now apply accepted_normalized_descriptor.
  - destruct (addMiddleware_rejected _ st A) as [message ->]. exact Hok.
Qed.

(** ** The chain of a route over a well-formed registry *)

Section ChainFacts.

Variable call : value -> value -> value -> value.
Variable routeObject : value.

Lemma buildMiddlewares_each_descriptor r props d acc st :
  routeObject = VObj r props ->
  lookup "hasOwnProperty" props = None ->
  descriptor d = true ->
  buildMiddlewares_each call routeObject d acc st =
    if spec_included routeObject d
    then (Normal (acc ++ wrap_all call routeObject (fresh st) [d]),
          mkState (middlewares st) (S (fresh st)))
    else (Normal acc, st).
Proof.
  intros Hro Hshadow Hd.
  unfold descriptor in Hd.
  destruct d as [| | | | | | |rd dprops]; try discriminate.
  unfold spec_included, policy, wrap_all, handler_for, name_of,
    buildMiddlewares_each, shouldAddMiddleware, hasOwnProperty, field in *.
  rewrite Hro. clear Hro. simpl in *. rewrite Hshadow.
  destruct (lookup "name" dprops) as [name|]; [|discriminate].
  destruct name as [| | | |s| | |]; try discriminate.
  destruct (lookup "generator" dprops) as [generator|];
    [|now rewrite Bool.andb_false_r in Hd].
  destruct generator as [| | | | |rg cg| |];
    try now rewrite Bool.andb_false_r in Hd.
  run_monad.
  assert (Hs : negb (s =? "") = true)
    by (destruct (negb (s =? "")); [reflexivity|discriminate]).
  rewrite Hs in Hd. simpl in Hd. clear Hs.
  destruct (lookup "include" dprops) as [include|]; simpl;
    [|destruct (lookup s props); reflexivity].
  destruct include as [| |b|n|t|ri ci|ri tokens|ri iprops]; simpl in *;
    try discriminate;
    try (destruct (lookup s props); reflexivity).
  - destruct b; [discriminate|].
    simpl. destruct (lookup s props); reflexivity.
  - destruct (n =? 0)%Z eqn:En; [|discriminate].
    simpl. rewrite ?En. simpl. destruct (lookup s props); reflexivity.
  - destruct (t =? "") eqn:Et; [|discriminate].
    apply String.eqb_eq in Et; subst t. simpl.
    destruct (lookup s props); reflexivity.
  - rewrite !array_indexOf_contains.
    destruct (contains tokens (VStr "all")); simpl.
    + reflexivity.
    + destruct (contains tokens
                  match lookup "method" props with
                  | Some v => v
                  | None => VUndefined
                  end); simpl; [reflexivity|].
      destruct (lookup s props); reflexivity.
Qed.

Lemma wrap_all_app a ds ds' :
  wrap_all call routeObject a (ds ++ ds')
  = wrap_all call routeObject a ds
    ++ wrap_all call routeObject (a + List.length ds) ds'.
Proof.
  revert a. induction ds as [|d rest IH]; intros a; simpl.
  - now rewrite Nat.add_0_r.
  - rewrite IH. now rewrite Nat.add_succ_comm.
Qed.

Lemma forEach_descriptors r props ds acc st :
  routeObject = VObj r props ->
  lookup "hasOwnProperty" props = None ->
  registry_ok ds ->
  forEach ds (buildMiddlewares_each call routeObject) acc st =
    (Normal (acc ++ wrap_all call routeObject (fresh st)
                      (filter (spec_included routeObject) ds)),
     mkState (middlewares st)
             (fresh st + List.length (filter (spec_included routeObject) ds))).
Proof.
  intros Hro Hshadow Hok. revert acc st.
  induction Hok as [|d rest Hd Hrest IH]; intros acc st; simpl.
  - unfold ret. rewrite app_nil_r, Nat.add_0_r. now destruct st.
  - unfold bind at 1.
    rewrite (buildMiddlewares_each_descriptor r props d acc st
               Hro Hshadow Hd).
    destruct (spec_included routeObject d); rewrite IH; simpl.
    + rewrite <- app_assoc. simpl. now rewrite Nat.add_succ_r.
    + reflexivity.
Qed.

(** The chain: the path, then one closure per included descriptor, in
    registration order. *)
Lemma buildMiddlewares_chain r props st :
  routeObject = VObj r props ->
  lookup "hasOwnProperty" props = None ->
  registry_ok (middlewares st) ->
  truthy (field routeObject "path") = true ->
  truthy (field routeObject "method") = true ->
  buildMiddlewares call routeObject st =
    (Normal (field routeObject "path"
             :: wrap_all call routeObject (fresh st)
                  (filter (spec_included routeObject) (middlewares st))),
     mkState (middlewares st)
             (fresh st
              + List.length (filter (spec_included routeObject) (middlewares st)))).
Proof.
  intros Hro Hshadow Hok Hpath Hmethod.
  assert (Hget : forall k, get_prop routeObject k = Normal (field routeObject k))
    by (intros k; rewrite Hro; reflexivity).
  unfold buildMiddlewares. run_monad.
  rewrite (Hget "path"), Hpath. simpl.
  rewrite (Hget "method"), Hmethod. simpl.
  exact (forEach_descriptors r props (middlewares st)
           [field routeObject "path"] st Hro Hshadow Hok).
Qed.

End ChainFacts.

(** ** Computations that leave the registry alone *)

Lemma preserves_ret A (a : A) : preserves_registry (ret a).
Proof. intros st. reflexivity. Qed.

Lemma preserves_throw A e : preserves_registry (throw (A := A) e).
Proof. intros st. reflexivity. Qed.

Lemma preserves_lift A (c : completion A) : preserves_registry (lift c).
Proof. intros st. reflexivity. Qed.

Lemma preserves_gets A (f : state -> A) : preserves_registry (gets f).
Proof. intros st. reflexivity. Qed.

Lemma preserves_logger label middleware :
  preserves_registry (logger label middleware).
Proof. intros st. reflexivity. Qed.

Lemma preserves_bind A B (m : M state A) (f : A -> M state B) :
  preserves_registry m ->
  (forall a, preserves_registry (f a)) ->
  preserves_registry (bind m f).
Proof.
  intros Hm Hf st. unfold bind.
  specialize (Hm st).
  destruct (m st) as [[a|e] st']; simpl in *.
  - now rewrite Hf.
  - exact Hm.
Qed.

Lemma preserves_forEach A B (l : list A) (body : A -> B -> M state B) acc :
  (forall x b, preserves_registry (body x b)) ->
  preserves_registry (forEach l body acc).
Proof.
  intros Hbody. revert acc.
  induction l as [|x rest IH]; intros acc; simpl.
  - apply preserves_ret.
  - apply preserves_bind; [apply Hbody|exact IH].
Qed.

Create HintDb frame.
#[local] Hint Resolve preserves_ret preserves_throw preserves_lift
  preserves_gets preserves_logger : frame.

Ltac frame :=
  repeat first
    [ solve [auto with frame]
    | apply preserves_bind; [|intros ?]
    | match goal with
      | |- preserves_registry (if ?c then _ else _) => destruct c
      end ].

Section Frames.

Variable call : value -> value -> value -> value.

Lemma preserves_shouldAddMiddleware routeObject middlewareObject :
  preserves_registry (shouldAddMiddleware routeObject middlewareObject).
Proof. unfold shouldAddMiddleware. frame. Qed.

Lemma preserves_buildMiddlewares_each routeObject middlewareObject acc :
  preserves_registry
    (buildMiddlewares_each call routeObject middlewareObject acc).
Proof.
  unfold buildMiddlewares_each. frame.
Qed.

Lemma preserves_buildMiddlewares routeObject :
  preserves_registry (buildMiddlewares call routeObject).
Proof.
  unfold buildMiddlewares. frame.
  apply preserves_forEach. intros x b.
  apply preserves_buildMiddlewares_each.
Qed.

(** The loop of [buildRouter] touches neither the registry nor the identity
    and the members of the router, and only adds to its stack. *)
Lemma buildRouter_each_frame routeObject router st :
  let '(_, (router', st')) := buildRouter_each call routeObject tt (router, st) in
  middlewares st' = middlewares st
  /\ rid router' = rid router
  /\ entry_points router' = entry_points router
  /\ other_callables router' = other_callables router
  /\ exists added, stack router' = stack router ++ added.
Proof.
  assert (Hsame : forall st',
            middlewares st' = middlewares st ->
            middlewares st' = middlewares st
            /\ rid router = rid router
            /\ entry_points router = entry_points router
            /\ other_callables router = other_callables router
            /\ exists added, stack router = stack router ++ added).
  { intros st' H. repeat split; try assumption.
    exists []. now rewrite app_nil_r. }
  unfold buildRouter_each, bind, lift, throw, on_module, apply_entry_point.
  destruct (get_prop routeObject "method") as [method|e]; simpl;
    [|now apply Hsame].
  destruct (negb (truthy method)); simpl; [now apply Hsame|].
  pose proof (preserves_buildMiddlewares routeObject st) as Hreg.
  destruct (buildMiddlewares call routeObject st) as [[chain|e] st'];
    simpl in *; [|now apply Hsame].
  destruct (toLowerCase call method) as [name|e]; simpl; [|now apply Hsame].
  destruct (to_key name) as [key|e]; simpl; [|now apply Hsame].
  destruct (existsb (String.eqb key) (entry_points router)); simpl.
  - repeat split; try assumption. now exists [(key, chain)].
  - destruct (existsb (String.eqb key) (other_callables router)); simpl;
      [now apply Hsame|].
    destruct (inherited key); now apply Hsame.
Qed.

Lemma buildRouter_loop_frame routeObjects router st :
  let '(_, (router', st')) :=
    forEach routeObjects (buildRouter_each call) tt (router, st) in
  middlewares st' = middlewares st
  /\ rid router' = rid router
  /\ entry_points router' = entry_points router
  /\ other_callables router' = other_callables router
  /\ exists added, stack router' = stack router ++ added.
Proof.
  revert router st.
  induction routeObjects as [|routeObject rest IH]; intros router st; simpl.
  - repeat split; try reflexivity. exists []. now rewrite app_nil_r.
  - unfold bind at 1.
    pose proof (buildRouter_each_frame routeObject router st) as Hone.
    destruct (buildRouter_each call routeObject tt (router, st))
      as [[[]|e] [router1 st1]].
    + specialize (IH router1 st1).
      destruct (forEach rest (buildRouter_each call) tt (router1, st1))
        as [c [router2 st2]].
      destruct Hone as (H1 & H2 & H3 & H5 & added1 & H4).
      destruct IH as (I1 & I2 & I3 & I5 & added2 & I4).
      repeat split; try congruence.
      exists (added1 ++ added2). rewrite I4, H4. now rewrite app_assoc.
    + exact Hone.
Qed.

Lemma buildRouter_frame router routeObjects st :
  let '(_, (router', st')) := buildRouter call router routeObjects st in
  middlewares st' = middlewares st
  /\ rid router' = rid router
  /\ entry_points router' = entry_points router
  /\ other_callables router' = other_callables router
  /\ exists added, stack router' = stack router ++ added.
Proof.
  unfold buildRouter, bind, gets.
  pose proof (buildRouter_loop_frame routeObjects router st) as Hloop.
  destruct (forEach routeObjects (buildRouter_each call) tt (router, st))
    as [[[]|e] [router' st']]; exact Hloop.
Qed.

End Frames.

(** [addMiddleware] and [setMiddlewares] only append. *)
Lemma addMiddleware_appends middlewareObject st :
  exists added,
    middlewares (snd (addMiddleware middlewareObject st))
    = middlewares st ++ added
    /\ (List.length added <= 1)%nat.
Proof.
  destruct (accepted middlewareObject) eqn:A.
  - rewrite (addMiddleware_accepted _ _ A). simpl.
    eexists. split; [reflexivity|]. simpl. lia.
  - destruct (addMiddleware_rejected _ st A) as [message ->]. simpl.
    exists []. split; [now rewrite app_nil_r|]. simpl. lia.
Qed.

Lemma addMiddleware_loop_appends elems st :
  exists added,
    middlewares
      (snd (forEach elems (fun middlewareObject _ => addMiddleware middlewareObject)
              tt st))
    = middlewares st ++ added.
Proof.
  revert st. induction elems as [|x rest IH]; intros st; simpl.
  - exists []. now rewrite app_nil_r.
  - unfold bind at 1.
    destruct (addMiddleware_appends x st) as (added1 & H1 & _).
    destruct (addMiddleware x st) as [[[]|e] st1]; simpl in *.
    + destruct (IH st1) as (added2 & H2).
      exists (added1 ++ added2). rewrite H2, H1. now rewrite app_assoc.
    + now exists added1.
Qed.

Lemma setMiddlewares_appends middlewareObjects st :
  exists added,
    middlewares (snd (setMiddlewares middlewareObjects st))
    = middlewares st ++ added.
Proof.
  unfold setMiddlewares.
  destruct middlewareObjects;
    try (exists []; simpl; now rewrite app_nil_r).
  apply addMiddleware_loop_appends.
Qed.

Lemma setMiddlewares_registry_ok middlewareObjects st :
  registry_ok (middlewares st) ->
  registry_ok (middlewares (snd (setMiddlewares middlewareObjects st))).
Proof.
  unfold setMiddlewares.
  destruct middlewareObjects as [| | | | | |r elems|]; try (intros H; exact H).
  revert st. induction elems as [|x rest IH]; intros st Hok; simpl.
  - exact Hok.
  - unfold bind at 1.
    pose proof (addMiddleware_registry_ok x st Hok) as Hone.
    destruct (addMiddleware x st) as [[[]|e] st1]; simpl in *.
    + now apply IH.
    + exact Hone.
Qed.

(** Every registry the exported functions build is well formed. *)
Lemma reachable_registry_ok call st :
  reachable call st -> registry_ok (middlewares st).
Proof.
  induction 1 as [a|st mo _ IH|st mos _ IH|st ro _ IH|st router ros _ IH].
  - constructor.
  - now apply addMiddleware_registry_ok.
  - now apply setMiddlewares_registry_ok.
  - now rewrite preserves_buildMiddlewares.
  - pose proof (buildRouter_frame call router ros st) as H.
    destruct (buildRouter call router ros st) as [c [router' st']].
    simpl. destruct H as [-> _]. exact IH.
Qed.

(** ** The registry: what [add] accepts, and what it stores *)

Lemma accepted_not_rejected middlewareObject :
  accepted middlewareObject = negb (rejected middlewareObject).
Proof.
  unfold accepted, rejected, spec_rejected, is_non_null_object, field.
  destruct middlewareObject as [| |b|n|s|r c|r elems|r props]; simpl;
    try reflexivity;
    try (destruct b; reflexivity);
    try (now rewrite Bool.andb_false_r).
  destruct (lookup "name" props) as [name|]; simpl; [|reflexivity].
  destruct name as [| |b|n|s|rn cn|rn en|rn pn]; simpl;
    try reflexivity;
    try (destruct b; reflexivity);
    try (now rewrite Bool.andb_false_r).
  destruct (lookup "generator" props) as [generator|]; simpl;
    [|now rewrite Bool.andb_false_r].
  destruct generator as [| |b|n|s'|rg cg|rg eg|rg pg]; simpl;
    try (now rewrite !Bool.andb_false_r);
    try (destruct b; now rewrite ?Bool.andb_false_r).
  destruct (s =? ""); reflexivity.
Qed.

(** C6 as stated fails: an object whose [name] is the empty string has a
    [name] that is present and is a string, and a function [generator], yet
    [addMiddleware] throws on it. *)
Lemma empty_name_is_rejected :
  spec_rejected nameless = false
  /\ addMiddleware nameless empty_registry
     = (Throw (Error "addMiddleware: name required"), empty_registry).
Proof. split; reflexivity. Qed.

(** C6, amended: [addMiddleware] throws exactly when its argument is absent
    or not a non-null object, or [name] is missing, not a string or the
    empty string, or [generator] is missing or not a function; what it
    throws is an [Error], and the state is then left as it was. *)
Theorem addMiddleware_fails_exactly_when middlewareObject st :
  (rejected middlewareObject = true
   <-> exists e, fst (addMiddleware middlewareObject st) = Throw e)
  /\ (forall e, fst (addMiddleware middlewareObject st) = Throw e ->
      (exists message, e = Error message)
      /\ snd (addMiddleware middlewareObject st) = st).
Proof.
  pose proof (accepted_not_rejected middlewareObject) as Hacc.
  destruct (rejected middlewareObject) eqn:R; simpl in Hacc.
  - destruct (addMiddleware_rejected _ st Hacc) as [message Hthrow].
    rewrite Hthrow. simpl. split.
    + split; [intros _; now eexists|reflexivity].
    + intros e He. injection He as <-. split; [now eexists|reflexivity].
  - rewrite (addMiddleware_accepted _ _ Hacc). simpl. split.
    + split; [discriminate|intros [e He]; discriminate].
    + intros e He. discriminate.
Qed.

(** C5 as stated fails: an [include] that is present but falsy, here the
    empty string, is a scalar that [addMiddleware] stores as it is, not
    wrapped in a one-element array. *)
Lemma empty_include_is_not_wrapped :
  accepted empty_include = true
  /\ own_field empty_include "include" = Some (VStr "")
  /\ middlewares (snd (addMiddleware empty_include empty_registry))
     = [empty_include]
  /\ is_array (field empty_include "include") = false.
Proof. repeat split; reflexivity. Qed.

Lemma field_normalized_other a middlewareObject k :
  k <> "include" ->
  field (normalized a middlewareObject) k = field middlewareObject k.
Proof.
  intros Hk. unfold normalized.
  destruct (truthy (field middlewareObject "include")); [|reflexivity].
  destruct middlewareObject as [| | | | | | |r props]; try reflexivity.
  unfold field. simpl. now rewrite lookup_update_other.
Qed.

Lemma field_normalized_include a middlewareObject :
  accepted middlewareObject = true ->
  truthy (field middlewareObject "include") = true ->
  field (normalized a middlewareObject) "include"
  = VArr a (concat_elems (field middlewareObject "include")).
Proof.
  intros Hacc Hinc. unfold normalized. rewrite Hinc.
  destruct middlewareObject as [| | | | | | |r props];
    try (unfold field in Hinc; simpl in Hinc; discriminate).
  unfold field. simpl. now rewrite lookup_update_same.
Qed.

(** C5, amended: for every descriptor that passes the guards,
    [addMiddleware] appends one entry at the tail of the registry.  When
    [include] is truthy the entry's [include] is a new array, holding the
    elements of [include] in order when it was an array and [include] alone
    otherwise, and the normalisation happens exactly once: the call makes
    that one array and no other object.  When [include] is falsy
    ([undefined], [null], [false], [0] or the empty string) the entry is the
    argument unchanged and nothing is made.  The other properties are
    kept. *)
Theorem addMiddleware_appends_normalized middlewareObject st :
  accepted middlewareObject = true ->
  exists entry st',
    addMiddleware middlewareObject st = (Normal tt, st')
    /\ middlewares st' = middlewares st ++ [entry]
    /\ List.length (middlewares st') = S (List.length (middlewares st))
    /\ (forall k, k <> "include" -> field entry k = field middlewareObject k)
    /\ (truthy (field middlewareObject "include") = false ->
        entry = middlewareObject /\ fresh st' = fresh st)
    /\ (truthy (field middlewareObject "include") = true ->
        exists tokens,
          field entry "include" = VArr (fresh st) tokens
          /\ (forall r elems,
                field middlewareObject "include" = VArr r elems ->
                tokens = elems)
          /\ (is_array (field middlewareObject "include") = false ->
              tokens = [field middlewareObject "include"])
          /\ fresh st' = S (fresh st)).
Proof.
  intros Hacc.
  exists (normalized (fresh st) middlewareObject). eexists.
  split; [exact (addMiddleware_accepted _ _ Hacc)|]. simpl.
  split; [reflexivity|].
  split; [rewrite length_app; simpl; lia|].
  split; [intros k Hk; now apply field_normalized_other|].
  split.
  - intros Hfalsy. unfold normalized. now rewrite Hfalsy.
  - intros Htruthy.
    exists (concat_elems (field middlewareObject "include")).
    rewrite (field_normalized_include _ _ Hacc Htruthy).
    split; [reflexivity|]. split; [|split].
    + intros r elems ->. reflexivity.
    + destruct (field middlewareObject "include"); simpl;
        try reflexivity; discriminate.
    + now rewrite Htruthy.
Qed.

Lemma addMiddleware_appends_normalized_witness :
  exists entry st',
    addMiddleware pagination empty_registry = (Normal tt, st')
    /\ middlewares st' = [entry]
    /\ field entry "include" = VArr 100 [VStr "get"]
    /\ fresh st' = 101.
Proof.
  destruct (addMiddleware_appends_normalized pagination empty_registry
              eq_refl)
    as (entry & st' & Hadd & Hreg & _ & _ & _ & Hinc).
  destruct (Hinc eq_refl) as (tokens & Hfield & _ & Hscalar & Hfresh).
  exists entry, st'. split; [exact Hadd|]. split; [exact Hreg|].
  split; [|exact Hfresh].
  rewrite Hfield. now rewrite (Hscalar eq_refl).
Defined.

(** ** The route checks of [buildMiddlewares] *)

Lemma buildMiddlewares_falsy_path call routeObject st :
  routeObject <> VUndefined -> routeObject <> VNull ->
  truthy (field routeObject "path") = false ->
  buildMiddlewares call routeObject st
  = (Throw (Error "route object requires a 'path' attribute"), st).
Proof.
  intros Hu Hn Hpath. unfold buildMiddlewares, field in *. run_monad.
  destruct routeObject; try congruence; simpl in *;
    try reflexivity. now rewrite Hpath.
Qed.

Lemma buildMiddlewares_falsy_method call routeObject st :
  routeObject <> VUndefined -> routeObject <> VNull ->
  truthy (field routeObject "path") = true ->
  truthy (field routeObject "method") = false ->
  buildMiddlewares call routeObject st
  = (Throw (Error "route object requires a 'methods' attribute"), st).
Proof.
  intros Hu Hn Hpath Hmethod. unfold buildMiddlewares, field in *. run_monad.
  destruct routeObject; try congruence; simpl in *;
    try discriminate. now rewrite Hpath, Hmethod.
Qed.

(** C7: on a route object without [path], [buildMiddlewares] throws the
    path error, whatever its [method] is; on one with a [path] and without
    [method] it throws an [Error] too, the method error when the path is
    truthy.  Either way the result does not depend on the registry, of which
    no entry is read, and the state is left as it was: no closure was
    made. *)
Theorem buildMiddlewares_checks_path_then_method call r props st :
  (lookup "path" props = None ->
   buildMiddlewares call (VObj r props) st
   = (Throw (Error "route object requires a 'path' attribute"), st))
  /\ (forall path,
        lookup "path" props = Some path ->
        lookup "method" props = None ->
        exists message,
          buildMiddlewares call (VObj r props) st
          = (Throw (Error message), st)
          /\ (truthy path = true ->
              message = "route object requires a 'methods' attribute")).
Proof.
  split.
  - intros Hpath. apply buildMiddlewares_falsy_path; try discriminate.
    unfold field. simpl. now rewrite Hpath.
  - intros path Hpath Hmethod.
    destruct (truthy path) eqn:Htruthy.
    + eexists. split; [|reflexivity].
      apply buildMiddlewares_falsy_method; try discriminate;
        unfold field; simpl.
      * now rewrite Hpath.
      * now rewrite Hmethod.
    + eexists. split; [|discriminate].
      apply buildMiddlewares_falsy_path; try discriminate.
      unfold field. simpl. now rewrite Hpath.
Qed.

Lemma buildMiddlewares_checks_path_then_method_witness :
  buildMiddlewares factory (VObj 40 [("method", VStr "get")])
    (mkState [VNull] 100)
  = (Throw (Error "route object requires a 'path' attribute"),
     mkState [VNull] 100)
  /\ exists message,
       buildMiddlewares factory (VObj 41 [("path", VStr "/fish")])
         (mkState [VNull] 100)
       = (Throw (Error message), mkState [VNull] 100)
       /\ (truthy (VStr "/fish") = true ->
           message = "route object requires a 'methods' attribute").
Proof.
  split.
  - apply (proj1 (buildMiddlewares_checks_path_then_method factory 40
                    [("method", VStr "get")] (mkState [VNull] 100))).
    reflexivity.
  - apply (proj2 (buildMiddlewares_checks_path_then_method factory 41
                    [("path", VStr "/fish")] (mkState [VNull] 100))
             (VStr "/fish")); reflexivity.
Defined.

(** C8: [buildMiddlewares], [buildRouter] and [getMiddlewares] leave the
    registry as it was; [addMiddleware] and [setMiddlewares] leave it as a
    prefix of the new one, so no operation removes or reorders an entry. *)
Theorem registry_only_grows call :
  (forall routeObject st,
     middlewares (snd (buildMiddlewares call routeObject st)) = middlewares st)
  /\ (forall router routeObjects st,
        middlewares (snd (snd (buildRouter call router routeObjects st)))
        = middlewares st)
  /\ (forall st, getMiddlewares st = (Normal (middlewares st), st))
  /\ (forall middlewareObject st,
        exists added,
          middlewares (snd (addMiddleware middlewareObject st))
          = middlewares st ++ added
          /\ (List.length added <= 1)%nat)
  /\ (forall middlewareObjects st,
        exists added,
          middlewares (snd (setMiddlewares middlewareObjects st))
          = middlewares st ++ added).
Proof.
  split; [|split; [|split; [|split]]].
  - intros routeObject st. apply preserves_buildMiddlewares.
  - intros router routeObjects st.
    pose proof (buildRouter_frame call router routeObjects st) as H.
    destruct (buildRouter call router routeObjects st) as [c [router' st']].
    simpl. apply H.
  - reflexivity.
  - apply addMiddleware_appends.
  - apply setMiddlewares_appends.
Qed.

(** ** Which middlewares a chain holds, and in which order *)

Lemma registry_ok_swap before a between b after :
  registry_ok (before ++ a :: between ++ b :: after) ->
  registry_ok (before ++ b :: between ++ a :: after).
Proof.
  unfold registry_ok. rewrite !Forall_app, !Forall_cons_iff, !Forall_app,
    !Forall_cons_iff. tauto.
Qed.

Lemma filter_two (f : value -> bool) before a between b after :
  f a = true -> f b = true ->
  filter f (before ++ a :: between ++ b :: after)
  = filter f before ++ a :: filter f between ++ b :: filter f after.
Proof.
  intros Ha Hb. rewrite filter_app. simpl. rewrite Ha.
  rewrite filter_app. simpl. now rewrite Hb.
Qed.

Section ChainOrder.

Variable call : value -> value -> value -> value.

Lemma unwrap_wrap_all routeObject a ds :
  map unwrap (wrap_all call routeObject a ds)
  = map (fun d => Some (link call routeObject d)) ds.
Proof.
  revert a. induction ds as [|d rest IH]; intros a; simpl.
  - reflexivity.
  - now rewrite IH.
Qed.

(** Over a well-formed registry a route that passes the two checks always
    gets a chain: the path, then the wrapped handlers of the descriptors the
    rule of the specification selects, in registration order. *)
Lemma buildMiddlewares_links routeObject r props st :
  routeObject = VObj r props ->
  own_field routeObject "hasOwnProperty" = None ->
  registry_ok (middlewares st) ->
  truthy (field routeObject "path") = true ->
  truthy (field routeObject "method") = true ->
  exists closures st',
    buildMiddlewares call routeObject st
    = (Normal (field routeObject "path" :: closures), st')
    /\ map unwrap closures
       = map (fun d => Some (link call routeObject d))
             (filter (spec_included routeObject) (middlewares st)).
Proof.
  intros Hro Hshadow Hok Hpath Hmethod.
  rewrite Hro in Hshadow. simpl in Hshadow.
  do 2 eexists. split.
  - exact (buildMiddlewares_chain call routeObject r props st
             Hro Hshadow Hok Hpath Hmethod).
  - apply unwrap_wrap_all.
Qed.

End ChainOrder.

(** C2: for a route object with truthy [path] and [method] that does not
    itself define [hasOwnProperty], and a registry as [addMiddleware] builds
    it, the chain is the path followed by the wrapped handlers of exactly
    the entries that the rule selects (policy contains ["all"], or a token
    [===] to the method, which on strings is string equality, or the route
    has an own field of the entry's name), in registration order; and
    exchanging two selected entries of the registry exchanges their
    handlers in the chain and nothing else.  The handler of an entry is what
    its generator returns for the route's member of the entry's name, own
    or inherited. *)
Theorem chain_follows_policy_and_registration_order
    call routeObject r props st :
  routeObject = VObj r props ->
  own_field routeObject "hasOwnProperty" = None ->
  registry_ok (middlewares st) ->
  truthy (field routeObject "path") = true ->
  truthy (field routeObject "method") = true ->
  exists closures st',
    buildMiddlewares call routeObject st
    = (Normal (field routeObject "path" :: closures), st')
    /\ map unwrap closures
       = map (fun d => Some (link call routeObject d))
             (filter (spec_included routeObject) (middlewares st))
    /\ forall before a between b after st2,
         middlewares st = before ++ a :: between ++ b :: after ->
         middlewares st2 = before ++ b :: between ++ a :: after ->
         spec_included routeObject a = true ->
         spec_included routeObject b = true ->
         exists xs ys zs closures2 st2',
           map unwrap closures
           = xs ++ Some (link call routeObject a)
                :: ys ++ Some (link call routeObject b) :: zs
           /\ buildMiddlewares call routeObject st2
              = (Normal (field routeObject "path" :: closures2), st2')
           /\ map unwrap closures2
              = xs ++ Some (link call routeObject b)
                   :: ys ++ Some (link call routeObject a) :: zs.
Proof.
  intros Hro Hshadow Hok Hpath Hmethod.
  destruct (buildMiddlewares_links call routeObject r props st
              Hro Hshadow Hok Hpath Hmethod)
    as (closures & st' & Hrun & Hlinks).
  exists closures, st'. split; [exact Hrun|]. split; [exact Hlinks|].
  intros before a between b after st2 Hreg Hreg2 Ha Hb.
  assert (Hok2 : registry_ok (middlewares st2)).
  { rewrite Hreg2. apply (registry_ok_swap before a between b after).
    rewrite <- Hreg. exact Hok. }
  destruct (buildMiddlewares_links call routeObject r props st2
              Hro Hshadow Hok2 Hpath Hmethod)
    as (closures2 & st2' & Hrun2 & Hlinks2).
  set (select := filter (spec_included routeObject)).
  set (links := map (fun d => Some (link call routeObject d))).
  exists (links (select before)), (links (select between)),
    (links (select after)), closures2, st2'.
  split; [|split; [exact Hrun2|]].
  - rewrite Hlinks, Hreg. unfold select, links.
    rewrite (filter_two _ before a between b after Ha Hb).
    rewrite map_app. simpl. now rewrite map_app.
  - rewrite Hlinks2, Hreg2. unfold select, links.
    rewrite (filter_two _ before b between a after Hb Ha).
    rewrite map_app. simpl. now rewrite map_app.
Qed.

(** The two cases the route object's own and inherited members make.  A
    route with a field [hasOwnProperty] that is no function makes
    [buildMiddlewares] throw at the first entry its policy does not select;
    and the generator of a middleware named [toString], selected by policy
    for a route without such a field, is handed the [toString] of
    [Object.prototype]. *)
Example shadowed_hasOwnProperty_throws :
  buildMiddlewares factory shadowing_route tested_registry
  = (Throw TypeError, tested_registry).
Proof. reflexivity. Qed.

Example inherited_member_is_the_configuration :
  buildMiddlewares echo_factory fish_lowercase
    (snd (addMiddleware toString_descriptor empty_registry))
  = (Normal [VStr "/fish";
             VFun 101 (LogWrapper (VStr "toString")
                         (VFun 906 (Builtin "toString")))],
     mkState (middlewares (snd (addMiddleware toString_descriptor
                                  empty_registry))) 102).
Proof. reflexivity. Qed.

Lemma tested_registry_ok : registry_ok (middlewares tested_registry).
Proof. repeat constructor. Qed.

Lemma chain_follows_policy_and_registration_order_witness :
  exists closures st',
    buildMiddlewares factory fish tested_registry
    = (Normal (VStr "/fish" :: closures), st')
    /\ map unwrap closures
       = [Some (VStr "pagination", VFun 1002 UserCode);
          Some (VStr "authorization", VFun 1004 UserCode)].
Proof.
  destruct (chain_follows_policy_and_registration_order factory fish 10
              [("method", VStr "get"); ("path", VStr "/fish");
               ("authorization", VStr "bearer")]
              tested_registry eq_refl eq_refl tested_registry_ok
              eq_refl eq_refl)
    as (closures & st' & Hrun & Hlinks & _).
  exists closures, st'. split; [exact Hrun|exact Hlinks].
Defined.

(** C10: a policy token is matched against the method like any other
    string.  A registered descriptor whose policy contains ["optional"] (or
    ["required"]) is in the chain of every route whose method is that very
    word, also when the route has no field of the descriptor's name; the
    route object is one that does not itself define [hasOwnProperty], which
    [buildMiddlewares] calls on it for the entries the policy does not
    select. *)
Theorem policy_word_matches_as_method
    call routeObject r props st d token :
  routeObject = VObj r props ->
  own_field routeObject "hasOwnProperty" = None ->
  registry_ok (middlewares st) ->
  In d (middlewares st) ->
  token = "optional" \/ token = "required" ->
  contains (policy d) (VStr token) = true ->
  field routeObject "method" = VStr token ->
  truthy (field routeObject "path") = true ->
  has_own routeObject (name_of d) = false ->
  exists closures st',
    buildMiddlewares call routeObject st
    = (Normal (field routeObject "path" :: closures), st')
    /\ In d (filter (spec_included routeObject) (middlewares st))
    /\ In (Some (link call routeObject d)) (map unwrap closures).
Proof.
  intros Hro Hshadow Hok Hin Htoken Hpolicy Hmethod Hpath Hown.
  assert (Htruthy : truthy (field routeObject "method") = true).
  { rewrite Hmethod. destruct Htoken as [-> | ->]; reflexivity. }
  destruct (buildMiddlewares_links call routeObject r props st
              Hro Hshadow Hok Hpath Htruthy)
    as (closures & st' & Hrun & Hlinks).
  assert (Hsel : In d (filter (spec_included routeObject) (middlewares st))).
  { apply filter_In. split; [exact Hin|].
    unfold spec_included. rewrite Hmethod, Hpolicy.
    now rewrite Bool.orb_true_r. }
  exists closures, st'. split; [exact Hrun|]. split; [exact Hsel|].
  rewrite Hlinks.
  exact (in_map (fun d => Some (link call routeObject d)) _ d Hsel).
Qed.

Lemma policy_word_matches_as_method_witness :
  exists closures st',
    buildMiddlewares factory optional_route tested_registry
    = (Normal (VStr "/fish" :: closures), st')
    /\ In (Some (VStr "authorization", VFun 1004 UserCode))
          (map unwrap closures).
Proof.
  destruct (policy_word_matches_as_method factory optional_route 32
              [("method", VStr "optional"); ("path", VStr "/fish")]
              tested_registry
              (VObj 3 [("name", VStr "authorization");
                       ("include", VArr 101 [VStr "optional"]);
                       ("generator", VFun 4 UserCode)])
              "optional" eq_refl eq_refl tested_registry_ok
              (or_intror (or_introl eq_refl)) (or_introl eq_refl)
              eq_refl eq_refl eq_refl eq_refl)
    as (closures & st' & Hrun & _ & Hin).
  exists closures, st'. split; [exact Hrun|exact Hin].
Defined.

(** ** The ["required"] policy and the case of the method *)

(** [buildMiddlewares] compares [include] itself with the string
    ["required"].  That holds of a descriptor put in the registry with its
    [include] still a string, which then is enforced... *)
Example raw_required_is_enforced :
  buildMiddlewares factory fish_lowercase (mkState [handler] 100)
  = (Throw (Error "handler is a required configuration"),
     mkState [handler] 100).
Proof. reflexivity. Qed.

(** ...but never of an entry of a registry built by [addMiddleware], whose
    truthy [include] is an array: there a route that passes the two checks
    always gets its chain. *)
Lemma buildMiddlewares_never_requires call routeObject r props st :
  routeObject = VObj r props ->
  own_field routeObject "hasOwnProperty" = None ->
  registry_ok (middlewares st) ->
  truthy (field routeObject "path") = true ->
  truthy (field routeObject "method") = true ->
  exists chain st', buildMiddlewares call routeObject st = (Normal chain, st').
Proof.
  intros Hro Hshadow Hok Hpath Hmethod.
  destruct (buildMiddlewares_links call routeObject r props st
              Hro Hshadow Hok Hpath Hmethod) as (closures & st' & Hrun & _).
  now exists (field routeObject "path" :: closures), st'.
Qed.

(** C1 fails on the code: after [addMiddleware] of the README's [handler]
    descriptor ([include: "required"]), the policy of the registered entry
    contains ["required"], the route has no [handler] field, and yet
    [buildMiddlewares] returns a chain, the path alone, instead of
    throwing. *)
Theorem required_absent_is_not_rejected :
  let st := snd (addMiddleware handler empty_registry) in
  (exists entry,
     middlewares st = [entry]
     /\ contains (policy entry) (VStr "required") = true
     /\ has_own fish_lowercase (name_of entry) = false)
  /\ buildMiddlewares factory fish_lowercase st = (Normal [VStr "/fish"], st).
Proof.
  simpl. split.
  - eexists. split; [reflexivity|]. split; reflexivity.
  - reflexivity.
Qed.

(** C3 fails on the code: with the [pagination] descriptor of the tests
    ([include: "get"]) registered, the route whose method is ["GET"] gets a
    chain without it, while the one whose method is ["get"] gets it; and
    [buildRouter] registers the former under the entry point [get] all the
    same. *)
Theorem uppercase_method_misses_policy :
  buildMiddlewares factory fish_uppercase tested_registry
  = (Normal [VStr "/fish"], tested_registry)
  /\ buildMiddlewares factory fish_lowercase tested_registry
     = (Normal [VStr "/fish";
                VFun 102 (LogWrapper (VStr "pagination") (VFun 1002 UserCode))],
        mkState (middlewares tested_registry) 103)
  /\ stack (fst (snd (buildRouter factory express_router [fish_uppercase]
                        tested_registry)))
     = [("get", [VStr "/fish"])].
Proof. repeat split; reflexivity. Qed.

(** ** The chain starts with the path *)








(** ** [buildRouter] *)


Section RouterFacts.

Variable call : value -> value -> value -> value.





End RouterFacts.



(** The test of [buildRouter]: two route descriptors, two entries. *)
Example two_routes_two_entries :
  List.length
    (stack (fst (snd (buildRouter factory express_router
                        [get_badgers; post_badgers] tested_registry))))
  = 2%nat.
Proof. reflexivity. Qed.

(** ** The logger is transparent *)

Section LoggerFacts.

Variable effect : Type.
Variable world : Type.
Variable perform : effect -> world -> reply * world.

Lemma run_and_then next (p : prog effect) k w log :
  run effect world perform next (and_then effect p k) w log
  = let '(r, w', log') := run effect world perform next p w log in
    run effect world perform next (k r) w' log'.
Proof.
  revert w log.
  induction p as [v|e|namespace message p IH|err k' IH|e k' IH];
    intros w log; simpl.
  - reflexivity.
  - reflexivity.
  - apply IH.
  - destruct (next err w) as [r w']. apply IH.
  - destruct (perform e w) as [r w']. apply IH.
Qed.

(** The log does not feed back into a run. *)
Lemma observed_any_log next (p : prog effect) w log log' :
  observed world (run effect world perform next p w log)
  = observed world (run effect world perform next p w log').
Proof.
  revert w log log'.
  induction p as [v|e|namespace message p IH|err k IH|e k IH];
    intros w log log'; simpl.
  - reflexivity.
  - reflexivity.
  - apply IH.
  - destruct (next err w) as [r w']. apply IH.
  - destruct (perform e w) as [r w']. apply IH.
Qed.

Lemma run_same_next next next' (p : prog effect) w log :
  (forall err w0, next err w0 = next' err w0) ->
  run effect world perform next p w log
  = run effect world perform next' p w log.
Proof.
  intros Hnext. revert w log.
  induction p as [v|e|namespace message p IH|err k IH|e k IH];
    intros w log; simpl.
  - reflexivity.
  - reflexivity.
  - apply IH.
  - rewrite <- Hnext. destruct (next err w) as [r w']. apply IH.
  - destruct (perform e w) as [r w']. apply IH.
Qed.

(** A program run with [newNext] for its continuation does what it does
    with [next] itself, the return value of [next] apart. *)
Lemma run_with_newNext next namespace (p : prog effect) w log log' :
  observed world
    (run effect world perform next
       (with_next effect (newNext effect namespace) p) w log)
  = observed world
      (run effect world perform (forwarded world next) p w log').
Proof.
  revert w log log'.
  induction p as [v|e|ns message p IH|err k IH|e k IH];
    intros w log log'; simpl.
  - reflexivity.
  - reflexivity.
  - apply IH.
  - unfold forwarded at 1.
    destruct (next err w) as [[v|e] w']; simpl; apply IH.
  - destruct (perform e w) as [r w']. apply IH.
Qed.

Lemma forwarded_undefined next :
  (forall err w v, fst (next err w) = Returned v -> v = VUndefined) ->
  forall err w, forwarded world next err w = next err w.
Proof.
  intros Hnext err w. unfold forwarded.
  specialize (Hnext err w).
  destruct (next err w) as [[v|e] w']; simpl in *.
  - now rewrite (Hnext v eq_refl).
  - reflexivity.
Qed.

End LoggerFacts.

(** C9 as stated fails: [newNext] calls [next(err)] and returns nothing, so
    a middleware that returns what its continuation returns, run with a
    continuation that returns 42, returns 42 by itself and [undefined] when
    wrapped. *)
Lemma wrapped_run_drops_the_return_of_next :
  observed req_world
    (run req_effect req_world set_req answering_next
       (logMiddlware req_effect "echo" echoing_middleware
          VUndefined (VObj 50 []) (VObj 51 [])) ([], []) [])
  = (Returned VUndefined, ([], [VUndefined]))
  /\ observed req_world
       (run req_effect req_world set_req answering_next
          (echoing_middleware VUndefined (VObj 50 []) (VObj 51 []))
          ([], []) [])
     = (Returned (VNum 42), ([], [VUndefined]))
  /\ observed req_world
       (run req_effect req_world set_req answering_next
          (logMiddlware req_effect "echo" echoing_middleware
             VUndefined (VObj 50 []) (VObj 51 [])) ([], []) [])
     <> observed req_world
          (run req_effect req_world set_req answering_next
             (echoing_middleware VUndefined (VObj 50 []) (VObj 51 []))
             ([], []) []).
Proof.
  split; [reflexivity|]. split; [reflexivity|]. discriminate.
Qed.

(** C9, amended: the function [logMiddlware] returns takes the same [this],
    [req] and [res] and calls the middleware once on them, with [newNext]
    for its continuation; [newNext] passes the error it receives on to
    [next], truthy or not, and returns nothing.  So, the log apart, a run of
    the wrapped middleware completes as, and leaves the world of, a run of
    the middleware whose continuation is [next] with its return value
    dropped; and when [next] returns nothing, as the continuation of a
    router does, that is the run of the middleware itself. *)
Theorem logMiddlware_is_transparent
    (effect world : Type) (perform : effect -> world -> reply * world)
    (next : value -> world -> reply * world)
    (label : string) (middleware : middleware_fn effect)
    (this req res : value) (w : world) (log : list (string * value)) :
  observed world
    (run effect world perform next
       (logMiddlware effect label middleware this req res) w log)
  = observed world
      (run effect world perform (forwarded world next)
         (middleware this req res) w log)
  /\ ((forall err w0 v, fst (next err w0) = Returned v -> v = VUndefined) ->
      observed world
        (run effect world perform next
           (logMiddlware effect label middleware this req res) w log)
      = observed world
          (run effect world perform next (middleware this req res) w log)).
Proof.
  assert (Hrun :
    observed world
      (run effect world perform next
         (logMiddlware effect label middleware this req res) w log)
    = observed world
        (run effect world perform (forwarded world next)
           (middleware this req res) w log)).
  { unfold logMiddlware. simpl. apply run_with_newNext. }
  split; [exact Hrun|].
  intros Hnext. rewrite Hrun.
  f_equal. apply run_same_next. now apply forwarded_undefined.
Qed.

(** The [pagination] middleware of the tests, wrapped: [req.pagination] is
    set, [next] is called once, with [undefined], and the wrapper has logged
    that it started and that it completed. *)
Lemma logMiddlware_is_transparent_witness :
  observed req_world
    (run req_effect req_world set_req express_next
       (logMiddlware req_effect "pagination" pagination_middleware
          VUndefined (VObj 50 []) (VObj 51 [])) ([], []) [])
  = observed req_world
      (run req_effect req_world set_req express_next
         (pagination_middleware VUndefined (VObj 50 []) (VObj 51 []))
         ([], []) [])
  /\ run req_effect req_world set_req express_next
       (logMiddlware req_effect "pagination" pagination_middleware
          VUndefined (VObj 50 []) (VObj 51 [])) ([], []) []
     = (Returned VUndefined,
        ([("pagination", VStr "pagination")], [VUndefined]),
        [("middleware:pagination", VStr "started");
         ("middleware:pagination", VStr "complete")]).
Proof.
  split; [|reflexivity].
  apply (proj2 (logMiddlware_is_transparent req_effect req_world
                  set_req express_next "pagination"
                  pagination_middleware VUndefined (VObj 50 [])
                  (VObj 51 []) ([], []) [])).
  intros err w0 v H. simpl in H. now injection H as <-.
Defined.

(** ** Batches: [setMiddlewares] *)

Lemma forEach_app S A B (l1 l2 : list A) (body : A -> B -> M S B) acc s :
  forEach (l1 ++ l2) body acc s
  = bind (forEach l1 body acc) (fun acc' => forEach l2 body acc') s.
Proof.
  revert acc s. induction l1 as [|x rest IH]; intros acc s; simpl.
  - reflexivity.
  - unfold bind.
    destruct (body x acc s) as [[acc1|e] s1]; [|reflexivity].
    rewrite IH. reflexivity.
Qed.

Lemma addMiddleware_rejected_with middlewareObject st :
  accepted middlewareObject = false ->
  addMiddleware middlewareObject st
  = (Throw (Error (rejection middlewareObject)), st).
Proof.
  unfold accepted, rejection, field, addMiddleware.
  destruct middlewareObject as [| |b|n|s|r c|r elems|r props]; simpl;
    try (intros _; run_monad; reflexivity).
  - destruct b; simpl; intros _; run_monad; reflexivity.
  - destruct (negb (n =? 0)%Z); simpl; intros _; run_monad; reflexivity.
  - destruct (negb (s =? "")); simpl; intros _; run_monad; reflexivity.
  - run_monad.
    destruct (lookup "name" props) as [name|]; simpl;
      [|intros _; reflexivity].
    destruct (truthy name) eqn:Tn; simpl; [|intros _; reflexivity].
    destruct (typeof name =? "string") eqn:Sn; simpl;
      [|intros _; reflexivity].
    destruct (lookup "generator" props) as [generator|]; simpl;
      [|intros _; reflexivity].
    destruct (truthy generator) eqn:Tg; simpl; [|intros _; reflexivity].
    destruct (typeof generator =? "function") eqn:Sg; simpl;
      [discriminate|intros _; reflexivity].
Qed.

Lemma addMiddleware_loop_accepted elems st :
  Forall (fun x => accepted x = true) elems ->
  forEach elems (fun middlewareObject _ => addMiddleware middlewareObject) tt st
  = (Normal tt,
     mkState (middlewares st ++ normalize_all (fresh st) elems)
             (fresh_after (fresh st) elems)).
Proof.
  intros Hall. revert st.
  induction Hall as [|x rest Hx Hrest IH]; intros st; simpl.
  - unfold ret. rewrite app_nil_r. now destruct st.
  - unfold bind. rewrite (addMiddleware_accepted x st Hx).
    rewrite IH. simpl. now rewrite <- app_assoc.
Qed.

Lemma first_rejected elems :
  ~ Forall (fun x => accepted x = true) elems ->
  exists before bad after,
    elems = before ++ bad :: after
    /\ Forall (fun x => accepted x = true) before
    /\ accepted bad = false.
Proof.
  induction elems as [|x rest IH]; intros Hnot.
  - destruct Hnot. constructor.
  - destruct (accepted x) eqn:Hx.
    + destruct IH as (before & bad & after & -> & Hbefore & Hbad).
      { intros Hrest. apply Hnot. now constructor. }
      exists (x :: before), bad, after. repeat split; auto.
    + exists [], x, rest. repeat split; auto.
Qed.

Lemma addMiddleware_loop_stops before bad after st :
  Forall (fun x => accepted x = true) before ->
  accepted bad = false ->
  forEach (before ++ bad :: after)
    (fun middlewareObject _ => addMiddleware middlewareObject) tt st
  = (Throw (Error (rejection bad)),
     mkState (middlewares st ++ normalize_all (fresh st) before)
             (fresh_after (fresh st) before)).
Proof.
  intros Hbefore Hbad.
  rewrite forEach_app. unfold bind at 1.
  rewrite (addMiddleware_loop_accepted before st Hbefore). simpl.
  unfold bind. now rewrite (addMiddleware_rejected_with bad _ Hbad).
Qed.

(** X1: [setMiddlewares] on an array whose elements all pass the guards of
    [addMiddleware] returns, and the registry has grown by one entry per
    element, in the order of the array, each the element with its truthy
    [include] made an array. *)
Theorem setMiddlewares_registers_all r elems st :
  Forall (fun x => accepted x = true) elems ->
  setMiddlewares (VArr r elems) st
  = (Normal tt,
     mkState (middlewares st ++ normalize_all (fresh st) elems)
             (fresh_after (fresh st) elems))
  /\ List.length (normalize_all (fresh st) elems) = List.length elems.
Proof.
  intros Hall. split.
  - exact (addMiddleware_loop_accepted elems st Hall).
  - clear Hall. generalize (fresh st).
    induction elems as [|x rest IH]; intros a; simpl; [reflexivity|].
    now rewrite IH.
Qed.

Lemma setMiddlewares_registers_all_witness :
  setMiddlewares (VArr 9 [pagination; authorization]) empty_registry
  = (Normal tt,
     mkState
       [VObj 1 [("name", VStr "pagination");
                ("include", VArr 100 [VStr "get"]);
                ("generator", VFun 2 UserCode)];
        VObj 3 [("name", VStr "authorization");
                ("include", VArr 101 [VStr "optional"]);
                ("generator", VFun 4 UserCode)]]
       102).
Proof.
  refine (proj1 (setMiddlewares_registers_all 9 [pagination; authorization]
                   empty_registry _)).
  repeat constructor.
Defined.

(** X2: no rollback in [setMiddlewares].  When the elements before some
    element pass the guards and that element does not, the call throws the
    error of [addMiddleware] for that element, the elements before it are
    registered, and the ones after it are not looked at. *)
Theorem setMiddlewares_stops_at_first_rejected r before bad after st :
  Forall (fun x => accepted x = true) before ->
  accepted bad = false ->
  setMiddlewares (VArr r (before ++ bad :: after)) st
  = (Throw (Error (rejection bad)),
     mkState (middlewares st ++ normalize_all (fresh st) before)
             (fresh_after (fresh st) before)).
Proof.
  intros Hbefore Hbad.
  exact (addMiddleware_loop_stops before bad after st Hbefore Hbad).
Qed.

Lemma setMiddlewares_stops_at_first_rejected_witness :
  setMiddlewares (VArr 9 [pagination; nameless; authorization]) empty_registry
  = (Throw (Error "addMiddleware: name required"),
     mkState
       [VObj 1 [("name", VStr "pagination");
                ("include", VArr 100 [VStr "get"]);
                ("generator", VFun 2 UserCode)]]
       101).
Proof.
  refine (setMiddlewares_stops_at_first_rejected 9 [pagination] nameless
            [authorization] empty_registry _ eq_refl).
  repeat constructor.
Defined.

(** X3: [setMiddlewares] throws exactly when its argument is not an array
    or holds an element that [addMiddleware] rejects. *)
Theorem setMiddlewares_fails_exactly_when middlewareObjects st :
  (exists e, fst (setMiddlewares middlewareObjects st) = Throw e)
  <-> (is_array middlewareObjects = false
       \/ exists r elems x,
            middlewareObjects = VArr r elems
            /\ In x elems /\ rejected x = true).
Proof.
  split.
  - intros [e He].
    destruct middlewareObjects as [| | | | | |r elems|]; try (now left).
    right.
    destruct (Forall_dec (fun x => accepted x = true)
                (fun x => Bool.bool_dec (accepted x) true) elems)
      as [Hall|Hnot].
    + unfold setMiddlewares in He.
      rewrite (addMiddleware_loop_accepted elems st Hall) in He.
      discriminate.
    + destruct (first_rejected elems Hnot)
        as (before & bad & after & -> & _ & Hbad).
      exists r, (before ++ bad :: after), bad.
      split; [reflexivity|]. split; [apply in_elt|].
      pose proof (accepted_not_rejected bad) as H. rewrite Hbad in H.
      now destruct (rejected bad).
  - intros [Hnot | (r & elems & x & -> & Hin & Hrej)].
    + destruct middlewareObjects; try discriminate; now eexists.
    + assert (Hnot : ~ Forall (fun x => accepted x = true) elems).
      { intros Hall. rewrite Forall_forall in Hall.
        specialize (Hall x Hin).
        rewrite accepted_not_rejected, Hrej in Hall. discriminate. }
      destruct (first_rejected elems Hnot)
        as (before & bad & after & -> & Hbefore & Hbad).
      unfold setMiddlewares.
      rewrite (addMiddleware_loop_stops before bad after st Hbefore Hbad).
      now eexists.
Qed.

(** X4: a batch can be split.  [setMiddlewares] of the concatenation of two
    arrays is [setMiddlewares] of the first followed, when it returns, by
    [setMiddlewares] of the second. *)
Theorem setMiddlewares_concatenation r r1 r2 elems1 elems2 st :
  setMiddlewares (VArr r (elems1 ++ elems2)) st
  = (setMiddlewares (VArr r1 elems1) ;;; setMiddlewares (VArr r2 elems2)) st.
Proof.
  unfold setMiddlewares. rewrite forEach_app. unfold bind.
  destruct (forEach elems1
              (fun middlewareObject _ => addMiddleware middlewareObject) tt st)
    as [[[]|e] st1]; reflexivity.
Qed.

(** ** More on [addMiddleware] and on the registry it builds *)

Lemma descriptor_accepted d : descriptor d = true -> accepted d = true.
Proof.
  unfold descriptor, accepted, field.
  destruct d as [| | | | | | |r props]; simpl; try discriminate.
  destruct (lookup "name" props) as [name|]; simpl; [|discriminate].
  destruct name as [| | | |s| | |]; simpl; try discriminate.
  destruct (lookup "generator" props) as [generator|]; simpl;
    [|now rewrite Bool.andb_false_r].
  destruct generator as [| | | | |rg cg| |]; simpl;
    try (now rewrite Bool.andb_false_r).
  destruct (negb (s =? "")); [reflexivity|discriminate].
Qed.

Lemma policy_normalized a d :
  descriptor d = true -> policy (normalized a d) = policy d.
Proof.
  intros Hd. pose proof (descriptor_accepted d Hd) as Hacc.
  unfold policy.
  destruct (truthy (field d "include")) eqn:Hinc.
  - rewrite (field_normalized_include a d Hacc Hinc).
    unfold descriptor in Hd.
    destruct d as [| | | | | | |r props]; try discriminate.
    destruct (field (VObj r props) "include"); try reflexivity;
      simpl in Hd, Hinc; try discriminate;
      try rewrite Hinc in Hd; simpl in Hd;
      rewrite ?Bool.andb_false_r in Hd; discriminate.
  - unfold normalized. now rewrite Hinc.
Qed.

(** X5: names are not checked against the registry.  A descriptor that is
    already registered is taken again by [addMiddleware]: the registry gets a
    second entry with the same name, generator and policy tokens, which
    every route selects or not as it does the first. *)
Theorem registered_descriptor_is_taken_again d st :
  registry_ok (middlewares st) ->
  In d (middlewares st) ->
  exists entry st',
    addMiddleware d st = (Normal tt, st')
    /\ middlewares st' = middlewares st ++ [entry]
    /\ field entry "name" = field d "name"
    /\ field entry "generator" = field d "generator"
    /\ policy entry = policy d
    /\ forall routeObject,
         spec_included routeObject entry = spec_included routeObject d.
Proof.
  intros Hok Hin.
  assert (Hd : descriptor d = true).
  { unfold registry_ok in Hok. rewrite Forall_forall in Hok. now apply Hok. }
  pose proof (descriptor_accepted d Hd) as Hacc.
  exists (normalized (fresh st) d). eexists.
  split; [exact (addMiddleware_accepted d st Hacc)|].
  split; [reflexivity|].
  assert (Hname : field (normalized (fresh st) d) "name" = field d "name")
    by (apply field_normalized_other; discriminate).
  split; [exact Hname|].
  split; [apply field_normalized_other; discriminate|].
  split; [now apply policy_normalized|].
  intros routeObject. unfold spec_included, name_of.
  now rewrite Hname, (policy_normalized _ _ Hd).
Qed.

Lemma registered_descriptor_is_taken_again_witness :
  exists entry st',
    addMiddleware
      (VObj 1 [("name", VStr "pagination");
               ("include", VArr 100 [VStr "get"]);
               ("generator", VFun 2 UserCode)]) tested_registry
    = (Normal tt, st')
    /\ List.length (middlewares st') = 3%nat
    /\ policy entry = [VStr "get"].
Proof.
  destruct (registered_descriptor_is_taken_again
              (VObj 1 [("name", VStr "pagination");
                       ("include", VArr 100 [VStr "get"]);
                       ("generator", VFun 2 UserCode)])
              tested_registry tested_registry_ok (or_introl eq_refl))
    as (entry & st' & Hadd & Hreg & _ & _ & Hpolicy & _).
  exists entry, st'. split; [exact Hadd|]. split.
  - rewrite Hreg. reflexivity.
  - exact Hpolicy.
Defined.

Lemma descriptor_shape entry :
  descriptor entry = true ->
  exists r props name rg cg,
    entry = VObj r props
    /\ field entry "name" = VStr name /\ name <> ""
    /\ field entry "generator" = VFun rg cg
    /\ (is_array (field entry "include") = true
        \/ truthy (field entry "include") = false).
Proof.
  unfold descriptor.
  destruct entry as [| | | | | | |r props]; try discriminate.
  destruct (field (VObj r props) "name") as [| | | |name| | |];
    try discriminate.
  destruct (field (VObj r props) "generator") as [| | | | |rg cg| |];
    try (now rewrite Bool.andb_false_r).
  intros H. exists r, props, name, rg, cg.
  split; [reflexivity|]. split; [reflexivity|].
  destruct (name =? "") eqn:Hname; [discriminate|].
  split; [intros ->; discriminate|]. split; [reflexivity|].
  simpl in H.
  destruct (field (VObj r props) "include"); simpl in *; auto;
    right; now apply Bool.negb_true_iff in H.
Qed.

(** X6: the invariant of the registry.  Whatever calls of the exported
    functions led to a state, each entry of its registry is a plain object
    whose [name] is a non-empty string, whose [generator] is a function and
    whose [include] is an array or falsy: never a truthy scalar. *)
Theorem reachable_entries_are_descriptors call st entry :
  reachable call st ->
  In entry (middlewares st) ->
  exists r props name rg cg,
    entry = VObj r props
    /\ field entry "name" = VStr name /\ name <> ""
    /\ field entry "generator" = VFun rg cg
    /\ (is_array (field entry "include") = true
        \/ truthy (field entry "include") = false).
Proof.
  intros Hreach Hin.
  pose proof (reachable_registry_ok call st Hreach) as Hok.
  unfold registry_ok in Hok. rewrite Forall_forall in Hok.
  exact (descriptor_shape entry (Hok entry Hin)).
Qed.

Lemma tested_registry_reachable : reachable factory tested_registry.
Proof.
  exact (reach_setMiddlewares factory empty_registry
           (VArr 9 [pagination; authorization]) (reach_empty factory 100)).
Qed.

Lemma reachable_entries_are_descriptors_witness :
  exists r props name rg cg,
    VObj 3 [("name", VStr "authorization");
            ("include", VArr 101 [VStr "optional"]);
            ("generator", VFun 4 UserCode)] = VObj r props
    /\ field (VObj 3 [("name", VStr "authorization");
                      ("include", VArr 101 [VStr "optional"]);
                      ("generator", VFun 4 UserCode)]) "name" = VStr name
    /\ name <> ""
    /\ field (VObj 3 [("name", VStr "authorization");
                      ("include", VArr 101 [VStr "optional"]);
                      ("generator", VFun 4 UserCode)]) "generator"
       = VFun rg cg
    /\ (is_array
          (field (VObj 3 [("name", VStr "authorization");
                          ("include", VArr 101 [VStr "optional"]);
                          ("generator", VFun 4 UserCode)]) "include") = true
        \/ truthy
             (field (VObj 3 [("name", VStr "authorization");
                             ("include", VArr 101 [VStr "optional"]);
                             ("generator", VFun 4 UserCode)]) "include")
           = false).
Proof.
  apply (reachable_entries_are_descriptors factory tested_registry _
           tested_registry_reachable).
  right. left. reflexivity.
Defined.

(** X7: the guards of [addMiddleware] are tried in order and the first to
    fail gives the message: an argument that is not a non-null object is
    reported as such; an object whose [name] is not a string, or is the
    empty string, as missing its name, whatever its [generator]; one with a
    proper name and a [generator] that is not a function, as missing its
    generator.  The state is left as it was. *)
Theorem addMiddleware_reports_first_failed_guard middlewareObject st :
  (is_non_null_object middlewareObject = false ->
   addMiddleware middlewareObject st
   = (Throw (Error "addMiddleware: middlewareObject must be an object"), st))
  /\ (is_non_null_object middlewareObject = true ->
      (typeof (field middlewareObject "name") =? "string") = false
      \/ field middlewareObject "name" = VStr "" ->
      addMiddleware middlewareObject st
      = (Throw (Error "addMiddleware: name required"), st))
  /\ (is_non_null_object middlewareObject = true ->
      (typeof (field middlewareObject "name") =? "string") = true ->
      field middlewareObject "name" <> VStr "" ->
      (typeof (field middlewareObject "generator") =? "function") = false ->
      addMiddleware middlewareObject st
      = (Throw (Error
           "addMiddleware: middlewareObject.generator must be a function"),
         st)).
Proof.
  split; [|split].
  - intros Hobj.
    assert (Hrej : accepted middlewareObject = false
                   /\ rejection middlewareObject
                      = "addMiddleware: middlewareObject must be an object").
    { unfold accepted, rejection.
      destruct middlewareObject as [| |b|n|s| | |]; try discriminate;
        simpl; try (split; reflexivity).
      - destruct b; split; reflexivity.
      - destruct (negb (n =? 0)%Z); split; reflexivity.
      - destruct (negb (s =? "")); split; reflexivity. }
    destruct Hrej as [Hacc Hmsg].
    now rewrite (addMiddleware_rejected_with _ st Hacc), Hmsg.
  - intros Hobj Hname.
    assert (Hrej : accepted middlewareObject = false
                   /\ rejection middlewareObject
                      = "addMiddleware: name required").
    { unfold accepted, rejection.
      destruct middlewareObject as [| | | | | |r elems|r props];
        try discriminate; simpl.
      - split; reflexivity.
      - destruct Hname as [Hname | Hname].
        + rewrite Hname. simpl.
          rewrite !Bool.andb_false_r, Bool.orb_true_r. split; reflexivity.
        + rewrite Hname. simpl. split; reflexivity. }
    destruct Hrej as [Hacc Hmsg].
    now rewrite (addMiddleware_rejected_with _ st Hacc), Hmsg.
  - intros Hobj Hstring Hnonempty Hgen.
    assert (Hrej : accepted middlewareObject = false
                   /\ rejection middlewareObject
                      = "addMiddleware: middlewareObject.generator must be a function").
    { unfold accepted, rejection.
      destruct middlewareObject as [| | | | | |r elems|r props];
        try discriminate; simpl.
      rewrite Hstring, Hgen. simpl.
      rewrite !Bool.andb_false_r.
      destruct (field (VObj r props) "name") as [| | | |s| | |];
        try discriminate. simpl.
      destruct (s =? "") eqn:Hs.
      - apply String.eqb_eq in Hs. subst s. now destruct Hnonempty.
      - split; reflexivity. }
    destruct Hrej as [Hacc Hmsg].
    now rewrite (addMiddleware_rejected_with _ st Hacc), Hmsg.
Qed.

Lemma addMiddleware_reports_first_failed_guard_witness :
  addMiddleware VUndefined empty_registry
  = (Throw (Error "addMiddleware: middlewareObject must be an object"),
     empty_registry)
  /\ addMiddleware (VObj 61 [("name", VNum 7)]) empty_registry
     = (Throw (Error "addMiddleware: name required"), empty_registry)
  /\ addMiddleware (VObj 62 [("name", VStr "badger")]) empty_registry
     = (Throw (Error
          "addMiddleware: middlewareObject.generator must be a function"),
        empty_registry).
Proof.
  split; [|split].
  - apply (proj1 (addMiddleware_reports_first_failed_guard VUndefined
                    empty_registry)). reflexivity.
  - apply (proj1 (proj2 (addMiddleware_reports_first_failed_guard
                           (VObj 61 [("name", VNum 7)]) empty_registry))).
    + reflexivity.
    + left. reflexivity.
  - apply (proj2 (proj2 (addMiddleware_reports_first_failed_guard
                           (VObj 62 [("name", VStr "badger")])
                           empty_registry))).
    + reflexivity.
    + reflexivity.
    + discriminate.
    + reflexivity.
Defined.

(** ** More on the chain *)

(** X10: what [shouldAddMiddleware] decides on.  For a registered
    descriptor and a route object it returns without touching the state, a
    value that is truthy exactly when the policy contains ["all"] or a token
    [===] to the route's method: no other field of the route is read, and a
    descriptor without policy is never selected by it. *)
Theorem shouldAddMiddleware_reads_policy_and_method
    routeObject r props d st :
  routeObject = VObj r props ->
  descriptor d = true ->
  exists v,
    shouldAddMiddleware routeObject d st = (Normal v, st)
    /\ truthy v
       = contains (policy d) (VStr "all")
         || contains (policy d) (field routeObject "method")
    /\ (policy d = [] -> truthy v = false).
Proof.
  intros -> Hd.
  unfold descriptor in Hd.
  destruct d as [| | | | | | |rd dprops]; try discriminate.
  unfold shouldAddMiddleware, policy, field in *. run_monad.
  destruct (lookup "include" dprops) as [include|]; simpl;
    [|eexists; repeat split; reflexivity].
  destruct (truthy include) eqn:Htruthy; simpl.
  - destruct include as [| |b|n|t|ri ci|ri tokens|ri iprops];
      simpl in Hd, Htruthy; try discriminate;
      try rewrite Htruthy in Hd; simpl in Hd;
      rewrite ?Bool.andb_false_r in Hd; try discriminate.
    simpl. rewrite array_indexOf_contains.
    destruct (contains tokens (VStr "all")) eqn:Hall; simpl.
    + eexists. split; [reflexivity|]. split; [reflexivity|].
      intros ->. discriminate.
    + rewrite array_indexOf_contains.
      eexists. split; [reflexivity|]. split; [reflexivity|].
      intros ->. reflexivity.
  - exists include. split; [reflexivity|].
    destruct include; simpl in *; try discriminate;
      repeat split; try reflexivity; try assumption; auto.
Qed.

Lemma shouldAddMiddleware_reads_policy_and_method_witness :
  exists v,
    shouldAddMiddleware fish
      (VObj 1 [("name", VStr "pagination");
               ("include", VArr 100 [VStr "get"]);
               ("generator", VFun 2 UserCode)]) tested_registry
    = (Normal v, tested_registry)
    /\ truthy v = true.
Proof.
  destruct (shouldAddMiddleware_reads_policy_and_method fish 10
              [("method", VStr "get"); ("path", VStr "/fish");
               ("authorization", VStr "bearer")]
              (VObj 1 [("name", VStr "pagination");
                       ("include", VArr 100 [VStr "get"]);
                       ("generator", VFun 2 UserCode)])
              tested_registry eq_refl eq_refl)
    as (v & Hrun & Htruthy & _).
  exists v. split; [exact Hrun|exact Htruthy].
Defined.

(** ** More on [buildRouter] *)

(** X12: [buildRouter] checks [method] before it builds the chain.  For a
    first route that is a plain object, a falsy [method] gives the error of
    [buildRouter] itself, also when the [path] is missing, and a truthy
    [method] with a falsy [path] gives the path error of [buildMiddlewares];
    in both cases the router and the state are as they were and no later
    route is looked at. *)
Theorem buildRouter_errors_by_check call router r props rest st :
  (truthy (field (VObj r props) "method") = false ->
   buildRouter call router (VObj r props :: rest) st
   = (Throw (Error "routeObject requires a 'method' object"), (router, st)))
  /\ (truthy (field (VObj r props) "method") = true ->
      truthy (field (VObj r props) "path") = false ->
      buildRouter call router (VObj r props :: rest) st
      = (Throw (Error "route object requires a 'path' attribute"),
         (router, st))).
Proof.
  assert (Hget : forall k,
            get_prop (VObj r props) k = Normal (field (VObj r props) k))
    by reflexivity.
  split.
  - intros Hmethod.
    unfold buildRouter, bind, gets. simpl.
    unfold buildRouter_each, bind, lift, throw.
    rewrite (Hget "method"), Hmethod. reflexivity.
  - intros Hmethod Hpath.
    unfold buildRouter, bind, gets. simpl.
    unfold buildRouter_each, bind, lift, throw, on_module.
    rewrite (Hget "method"), Hmethod. simpl.
    rewrite buildMiddlewares_falsy_path;
      [reflexivity|discriminate|discriminate|exact Hpath].
Qed.

Lemma buildRouter_errors_by_check_witness :
  buildRouter factory express_router [VObj 63 []; get_badgers] tested_registry
  = (Throw (Error "routeObject requires a 'method' object"),
     (express_router, tested_registry))
  /\ buildRouter factory express_router
       [VObj 64 [("method", VStr "get")]; get_badgers] tested_registry
     = (Throw (Error "route object requires a 'path' attribute"),
        (express_router, tested_registry)).
Proof.
  split.
  - apply (proj1 (buildRouter_errors_by_check factory express_router 63 []
                    [get_badgers] tested_registry)).
    reflexivity.
  - apply (proj2 (buildRouter_errors_by_check factory express_router 64
                    [("method", VStr "get")] [get_badgers] tested_registry));
      reflexivity.
Defined.

(** X13: a list of routes can be split.  [buildRouter] on the concatenation
    of two lists is [buildRouter] on the first and, when that returns,
    [buildRouter] of the returned router on the second; when the first
    throws, so does the whole, with the same router and state. *)
Theorem buildRouter_concatenation call router routes1 routes2 st :
  buildRouter call router (routes1 ++ routes2) st
  = match buildRouter call router routes1 st with
    | (Normal router1, (_, st1)) => buildRouter call router1 routes2 st1
    | (Throw e, final) => (Throw e, final)
    end.
Proof.
  unfold buildRouter, bind, gets. rewrite forEach_app. unfold bind.
  destruct (forEach routes1 (buildRouter_each call) tt (router, st))
    as [[[]|e] [router1 st1]]; reflexivity.
Qed.

(** ** More on the logger *)

Section LoggerLines.

Variable effect : Type.
Variable world : Type.
Variable perform : effect -> world -> reply * world.

Lemma next_calls_with_newNext next namespace (p : prog effect) w :
  next_calls effect world perform next
    (with_next effect (newNext effect namespace) p) w
  = next_calls effect world perform (forwarded world next) p w.
Proof.
  revert w.
  induction p as [v|e|ns message p IH|err k IH|e k IH]; intros w; simpl.
  - reflexivity.
  - reflexivity.
  - apply IH.
  - unfold forwarded at 1.
    destruct (next err w) as [[v|e] w']; simpl; f_equal; apply IH.
  - destruct (perform e w) as [r w']. apply IH.
Qed.

Lemma log_with_newNext next namespace (p : prog effect) w log :
  quiet effect p ->
  snd (run effect world perform next
         (with_next effect (newNext effect namespace) p) w log)
  = log ++ map (log_line namespace)
             (next_calls effect world perform (forwarded world next) p w).
Proof.
  intros Hquiet. revert w log.
  induction Hquiet as [v|e|err k _ IH|e k _ IH]; intros w log; simpl.
  - now rewrite app_nil_r.
  - now rewrite app_nil_r.
  - unfold forwarded at 1.
    destruct (next err w) as [[v|e] w']; simpl; rewrite IH;
      now rewrite <- app_assoc.
  - destruct (perform e w) as [r w']. apply IH.
Qed.

End LoggerLines.

(** X14: the errors reach [next] as they are.  A run of the wrapped
    middleware calls [next] as many times, in the same order and with the
    same arguments, as the middleware does when run with a continuation
    that returns nothing. *)
Theorem logMiddlware_forwards_errors
    (effect world : Type) (perform : effect -> world -> reply * world)
    (next : value -> world -> reply * world)
    (label : string) (middleware : middleware_fn effect)
    (this req res : value) (w : world) :
  next_calls effect world perform next
    (logMiddlware effect label middleware this req res) w
  = next_calls effect world perform (forwarded world next)
      (middleware this req res) w.
Proof.
  unfold logMiddlware. simpl. apply next_calls_with_newNext.
Qed.

(** X15: what the wrapper logs.  For a middleware that logs nothing itself,
    the wrapped run adds to the log, under the namespace
    ["middleware:" + label], the line ["started"] and then one line per call
    of [next], in order: the error when it is truthy, ["complete"] when it
    is not.  A middleware that never calls [next] is logged as started
    only. *)
Theorem logMiddlware_log_lines
    (effect world : Type) (perform : effect -> world -> reply * world)
    (next : value -> world -> reply * world)
    (label : string) (middleware : middleware_fn effect)
    (this req res : value) (w : world) (log : list (string * value)) :
  quiet effect (middleware this req res) ->
  snd (run effect world perform next
         (logMiddlware effect label middleware this req res) w log)
  = log
    ++ (("middleware:" ++ label)%string, VStr "started")
       :: map (log_line ("middleware:" ++ label)%string)
            (next_calls effect world perform (forwarded world next)
               (middleware this req res) w).
Proof.
  intros Hquiet. unfold logMiddlware. simpl.
  rewrite (log_with_newNext effect world perform next _ _ w _ Hquiet).
  now rewrite <- app_assoc.
Qed.

Lemma logMiddlware_log_lines_witness :
  snd (run req_effect req_world set_req express_next
         (logMiddlware req_effect "authorization" failing_middleware
            VUndefined (VObj 50 []) (VObj 51 [])) ([], []) [])
  = [("middleware:authorization", VStr "started");
     ("middleware:authorization", VObj 60 [("message", VStr "denied")])].
Proof.
  apply (logMiddlware_log_lines req_effect req_world set_req express_next
           "authorization" failing_middleware VUndefined (VObj 50 [])
           (VObj 51 []) ([], []) []).
  unfold failing_middleware. constructor. intros r. constructor.
Defined.
